(** * I2C decoder for the HP 16700 logic analyzer (i2c-tdk.c)

    A shallow embedding of the decoder of [src/i2c-tdk.c]: the [decoder]
    structure, [newDecoder], [handleState] and the sample loop of [execute],
    followed by the properties of the decoder stated in the specification.

    Conventions of the embedding.
    - [uint8_t] fields and [unsigned int] arguments are integers in [Z]; every
      store into a [uint8_t] field is written with its reduction modulo 256,
      and the [unsigned int] shift with its reduction modulo 2^32.
    - The TDK sinks are external: a call pair [eventDs.replaceNext(time);
      i2cEventsLE.replaceNext(label)] is one [EventOut time label], a call
      pair [dataDs.replaceNext(time); i2cLE.replaceNext(byte)] is one
      [DataOut time byte], and the calls on [io] are [IoPrint] and
      [IoPrintf].  [handleState] returns the calls it makes, in program
      order, next to the updated decoder. *)

From Stdlib Require Import ZArith List String Bool Lia Sorted.
Import ListNotations.
Open Scope Z_scope.

(** ** Data model *)

(** [enum conditions] (lines 22-29). *)
Inductive conditions : Type :=
| IDLE
| READ_ADDR
| READ_RW
| READ_DATA
| READ_ACK
| INVALID.

(** The integer value of an enumerator, as [printf("%d")] shows it. *)
Definition conditions_value (c : conditions) : Z :=
  match c with
  | IDLE => 0
  | READ_ADDR => 1
  | READ_RW => 2
  | READ_DATA => 3
  | READ_ACK => 4
  | INVALID => 5
  end.

Definition conditions_eqb (a b : conditions) : bool :=
  conditions_value a =? conditions_value b.

(** [struct decoder] (lines 31-37). *)
Record decoder : Type := mkDecoder {
  state : conditions;
  scl : Z;
  sda : Z;
  pos : Z;
  byteBuffer : Z
}.

(** One call on the external sinks. *)
Inductive output : Type :=
| EventOut (time : Z) (label : string)
| DataOut (time : Z) (value : Z)
| IoPrint (msg : string)
| IoPrintf (fmt : string) (args : list Z).

(** One row of the acquired data set: the values of the SCL and SDA labels
    and the time tag ([execute], line 148). *)
Record sample : Type := mkSample {
  s_scl : Z;
  s_sda : Z;
  s_time : Z
}.

(** ** Operations *)

(** [newDecoder] (lines 188-198).  The block comes from [malloc]; only
    [state], [scl] and [sda] are assigned, so [pos] and [byteBuffer] keep the
    indeterminate contents of the block, which are the two arguments. *)
Definition newDecoder (pos0 byteBuffer0 : Z) : decoder :=
  {| state := IDLE; scl := 1; sda := 1; pos := pos0; byteBuffer := byteBuffer0 |}.

(** Conversion of an [unsigned int] to [uint8_t]. *)
Definition to_uint8 (x : Z) : Z := x mod 256.

(** [sda << k] on a 32-bit [unsigned int], for a shift count between 0 and
    31.  The source shifts by [6 - d->pos] and [7 - d->pos]; lemma
    [shift_count_in_range] shows that in a session these counts are between
    0 and 7. *)
Definition shl_uint (x k : Z) : Z := (Z.shiftl x k) mod 2 ^ 32.

(** The assignments [d->scl = scl; d->sda = sda;] that end [handleState]
    (lines 303-304). *)
Definition setLevels (d : decoder) (sclValue sdaValue : Z) : decoder :=
  {| state := state d;
     scl := to_uint8 sclValue;
     sda := to_uint8 sdaValue;
     pos := pos d;
     byteBuffer := byteBuffer d |}.

Definition fmtUnhandled : string :=
  "  state=%d, lastSCL=%d, lastSDA=%d, scl=%d, sda=%d"%string.

Definition msgUnhandled : string :=
  "There's a state here we haven't implemented yet"%string.

(** [handleState] (lines 204-305): the chain of conditionals in the order of
    the source.  The first branch returns before the final assignments; every
    other branch falls through to them. *)
Definition handleState (d : decoder) (sclValue sdaValue : Z) (time : Z)
  : decoder * list output :=
  if (scl d =? sclValue) && (sda d =? sdaValue) then
    (d, [])
  else if (scl d =? 1) && (sclValue =? 0) then
    (setLevels d sclValue sdaValue, [])
  else if sclValue =? 0 then
    (setLevels d sclValue sdaValue, [])
  else if (scl d =? 1) && (sda d =? 1) && (sclValue =? 1) && (sdaValue =? 0) then
    let out :=
      if conditions_eqb (state d) IDLE
      then [EventOut time "START"%string]
      else [EventOut time "START(odd)"%string] in
    (setLevels {| state := READ_ADDR; scl := scl d; sda := sda d;
                  pos := 0; byteBuffer := 0 |} sclValue sdaValue,
     out)
  else if (scl d =? 1) && (sda d =? 0) && (sclValue =? 1) && (sdaValue =? 1) then
    (setLevels {| state := IDLE; scl := scl d; sda := sda d;
                  pos := pos d; byteBuffer := byteBuffer d |} sclValue sdaValue,
     [EventOut time "STOP"%string])
  else if conditions_eqb (state d) READ_ADDR && (sclValue =? 1) then
    let buf := to_uint8 (Z.lor (byteBuffer d) (shl_uint sdaValue (6 - pos d))) in
    let p := to_uint8 (pos d + 1) in
    if p =? 7 then
      (setLevels {| state := READ_RW; scl := scl d; sda := sda d;
                    pos := 0; byteBuffer := 0 |} sclValue sdaValue,
       [EventOut time "ADDRESS"%string; DataOut time buf])
    else
      (setLevels {| state := READ_ADDR; scl := scl d; sda := sda d;
                    pos := p; byteBuffer := buf |} sclValue sdaValue,
       [])
  else if conditions_eqb (state d) READ_RW && (sclValue =? 1) then
    (setLevels {| state := READ_ACK; scl := scl d; sda := sda d;
                  pos := pos d; byteBuffer := byteBuffer d |} sclValue sdaValue,
     [EventOut time (if sdaValue =? 0 then "WRITE"%string else "READ"%string)])
  else if conditions_eqb (state d) READ_ACK && (sclValue =? 1) then
    (setLevels {| state := READ_DATA; scl := scl d; sda := sda d;
                  pos := 0; byteBuffer := 0 |} sclValue sdaValue,
     [EventOut time (if sdaValue =? 0 then "ACK"%string else "NACK"%string)])
  else if conditions_eqb (state d) READ_DATA && (sclValue =? 1) then
    let buf := to_uint8 (Z.lor (byteBuffer d) (shl_uint sdaValue (7 - pos d))) in
    let p := to_uint8 (pos d + 1) in
    if p =? 8 then
      (setLevels {| state := READ_ACK; scl := scl d; sda := sda d;
                    pos := 0; byteBuffer := 0 |} sclValue sdaValue,
       [DataOut time buf; EventOut time "DATA"%string])
    else
      (setLevels {| state := READ_DATA; scl := scl d; sda := sda d;
                    pos := p; byteBuffer := buf |} sclValue sdaValue,
       [])
  else
    (setLevels d sclValue sdaValue,
     [IoPrint msgUnhandled;
      IoPrintf fmtUnhandled
        [conditions_value (state d); scl d; sda d; scl d; sda d]]).

(** The sample loop of [execute] (lines 148-151): [handleState] on every row,
    in order, on the one decoder. *)
Fixpoint run (d : decoder) (samples : list sample) : decoder * list output :=
  match samples with
  | [] => (d, [])
  | s :: rest =>
      let (d1, out1) := handleState d (s_scl s) (s_sda s) (s_time s) in
      let (d2, out2) := run d1 rest in
      (d2, out1 ++ out2)
  end.

(** A decode session: the decoder of [newDecoder] run over the rows. *)
Definition decode (pos0 byteBuffer0 : Z) (samples : list sample)
  : decoder * list output :=
  run (newDecoder pos0 byteBuffer0) samples.

(** The records that reach the event data set and the data data set. *)
Definition eventChannel (tr : list output) : list (Z * string) :=
  flat_map (fun o => match o with EventOut t l => [(t, l)] | _ => [] end) tr.

Definition dataChannel (tr : list output) : list (Z * Z) :=
  flat_map (fun o => match o with DataOut t v => [(t, v)] | _ => [] end) tr.

Definition ioChannel (tr : list output) : list output :=
  filter (fun o => match o with IoPrint _ | IoPrintf _ _ => true | _ => false end) tr.

(** ** Wave forms *)

(** Rows built from a list of (SCL, SDA) levels, the row of index [n] carrying
    the time tag [tm n]. *)
Fixpoint stamp (tm : nat -> Z) (n : nat) (levels : list (Z * Z)) : list sample :=
  match levels with
  | [] => []
  | (c, a) :: rest => mkSample c a (tm n) :: stamp tm (S n) rest
  end.

(** One bit on the wire: the clock goes low while the data line takes the
    level of the bit, then the clock rises with the data line held. *)
Definition bitLevels (b : Z) : list (Z * Z) := [(0, b); (1, b)].

(** The write transaction of the round trip scenario: idle bus, START, the
    address bits 1,0,1,0,0,0,0, the direction bit 0, the ack bit 0, eight data
    bits 1, the nack bit 1, and the STOP: the clock falls, the data line goes
    low, the clock rises, and the data line rises while the clock is high. *)
Definition writeTransaction : list (Z * Z) :=
  [(1, 1); (1, 0)]
  ++ flat_map bitLevels [1; 0; 1; 0; 0; 0; 0]
  ++ bitLevels 0
  ++ bitLevels 0
  ++ flat_map bitLevels [1; 1; 1; 1; 1; 1; 1; 1]
  ++ bitLevels 1
  ++ [(0, 1); (0, 0); (1, 0); (1, 1)].

(** ** Reachable decoders and classified transitions *)

(** The decoders a session can hold: the one [newDecoder] returns, and the
    result of [handleState] on a decoder the session can hold. *)
Inductive reachable (pos0 byteBuffer0 : Z) : decoder -> Prop :=
| reach_new : reachable pos0 byteBuffer0 (newDecoder pos0 byteBuffer0)
| reach_step : forall d sclValue sdaValue time,
    reachable pos0 byteBuffer0 d ->
    reachable pos0 byteBuffer0 (fst (handleState d sclValue sdaValue time)).

(** The test of line 223 (start condition) and of line 237 (stop
    condition). *)
Definition startCondition (d : decoder) (sclValue sdaValue : Z) : bool :=
  (scl d =? 1) && (sda d =? 1) && (sclValue =? 1) && (sdaValue =? 0).

Definition stopCondition (d : decoder) (sclValue sdaValue : Z) : bool :=
  (scl d =? 1) && (sda d =? 0) && (sclValue =? 1) && (sdaValue =? 1).

(** The rows that reach one of the state-guarded branches or the final
    [else]: none of the five tests of lines 208-237 holds. *)
Definition bitSampleEdge (d : decoder) (sclValue sdaValue : Z) : bool :=
  negb ((scl d =? sclValue) && (sda d =? sdaValue))
  && negb ((scl d =? 1) && (sclValue =? 0))
  && negb (sclValue =? 0)
  && negb (startCondition d sclValue sdaValue)
  && negb (stopCondition d sclValue sdaValue).

(** No row of the run meets the start condition. *)
Fixpoint startFree (d : decoder) (samples : list sample) : bool :=
  match samples with
  | [] => true
  | s :: rest =>
      negb (startCondition d (s_scl s) (s_sda s))
      && startFree (fst (handleState d (s_scl s) (s_sda s) (s_time s))) rest
  end.

(** The outputs that belong to a transaction (a byte of the data channel, or
    one of the events ADDRESS, WRITE, READ, ACK, NACK, DATA), and the two
    start events. *)
Definition inTransaction (o : output) : bool :=
  match o with
  | DataOut _ _ => true
  | EventOut _ l =>
      String.eqb l "ADDRESS" || String.eqb l "WRITE" || String.eqb l "READ"
      || String.eqb l "ACK" || String.eqb l "NACK" || String.eqb l "DATA"
  | _ => false
  end.

Definition isStartOut (o : output) : bool :=
  match o with
  | EventOut _ l => String.eqb l "START" || String.eqb l "START(odd)"
  | _ => false
  end.

(** [delivers d rows edges]: fed to the decoder [d], the rows contain exactly
    the bit sample edges [edges], in order, each given by its bit and its time
    tag, with the clock level 1 and the bit as data level; every other row of
    [rows] is ignored by one of the tests of lines 208-217 (no change, clock
    going low, data changing while the clock is low). *)
Fixpoint delivers (d : decoder) (rows : list sample) (edges : list (bool * Z))
  : bool :=
  match rows with
  | [] => match edges with [] => true | _ :: _ => false end
  | s :: rest =>
      let d' := fst (handleState d (s_scl s) (s_sda s) (s_time s)) in
      if bitSampleEdge d (s_scl s) (s_sda s) then
        match edges with
        | (b, t) :: edges' =>
            (s_scl s =? 1) && (s_sda s =? Z.b2z b) && (s_time s =? t)
            && delivers d' rest edges'
        | [] => false
        end
      else
        negb (startCondition d (s_scl s) (s_sda s))
        && negb (stopCondition d (s_scl s) (s_sda s))
        && delivers d' rest edges
  end.

(** Every output of a trace that belongs to a transaction comes after a start
    event; [seen] tells whether a start event came before the trace. *)
Fixpoint preceded (seen : bool) (tr : list output) : bool :=
  match tr with
  | [] => true
  | o :: rest =>
      (seen || negb (inTransaction o)) && preceded (seen || isStartOut o) rest
  end.

(** What holds of [pos] and [byteBuffer] in each state of a session whose
    decoder block held [pos0] and [byteBuffer0] at creation.  IDLE is entered
    by [newDecoder] and by a stop condition, neither of which assigns the two
    fields. *)
Definition sessionInv (pos0 byteBuffer0 : Z) (d : decoder) : Prop :=
  match state d with
  | IDLE => 0 <= pos d <= 7 \/ (pos d = pos0 /\ byteBuffer d = byteBuffer0)
  | READ_ADDR => 0 <= pos d <= 6
  | READ_RW => pos d = 0 /\ byteBuffer d = 0
  | READ_ACK => pos d = 0 /\ byteBuffer d = 0
  | READ_DATA => 0 <= pos d <= 7
  | INVALID => False
  end.

(** ** Views, event automaton, subsequences and transactions *)

(** Two decoders that agree on what [handleState] reads: [state], [scl] and
    [sda] always, [pos] and [byteBuffer] only in READ_ADDR and READ_DATA,
    the two states whose branches read them before assigning them. *)
Definition sameView (d1 d2 : decoder) : Prop :=
  state d1 = state d2 /\ scl d1 = scl d2 /\ sda d1 = sda d2
  /\ (state d1 = READ_ADDR \/ state d1 = READ_DATA ->
      pos d1 = pos d2 /\ byteBuffer d1 = byteBuffer d2).

(** The state [handleState] assigns in the branch that emits the label. *)
Definition stateAfter (l : string) : conditions :=
  if String.eqb l "START" then READ_ADDR
  else if String.eqb l "START(odd)" then READ_ADDR
  else if String.eqb l "STOP" then IDLE
  else if String.eqb l "ADDRESS" then READ_RW
  else if String.eqb l "WRITE" then READ_ACK
  else if String.eqb l "READ" then READ_ACK
  else if String.eqb l "ACK" then READ_DATA
  else if String.eqb l "NACK" then READ_DATA
  else if String.eqb l "DATA" then READ_ACK
  else INVALID.

(** The states in which [handleState] can emit the label. *)
Definition emittedIn (s : conditions) (l : string) : bool :=
  if String.eqb l "START" then conditions_eqb s IDLE
  else if String.eqb l "START(odd)" then negb (conditions_eqb s IDLE)
  else if String.eqb l "STOP" then true
  else if String.eqb l "ADDRESS" then conditions_eqb s READ_ADDR
  else if String.eqb l "WRITE" then conditions_eqb s READ_RW
  else if String.eqb l "READ" then conditions_eqb s READ_RW
  else if String.eqb l "ACK" then conditions_eqb s READ_ACK
  else if String.eqb l "NACK" then conditions_eqb s READ_ACK
  else if String.eqb l "DATA" then conditions_eqb s READ_DATA
  else false.

(** The labels are accepted by the automaton of the two functions above,
    started in state [s]. *)
Fixpoint accepted (s : conditions) (labels : list string) : bool :=
  match labels with
  | [] => true
  | l :: rest => emittedIn s l && accepted (stateAfter l) rest
  end.

Definition eventLabels (tr : list output) : list string :=
  map snd (eventChannel tr).

(** [subseq l1 l2]: [l1] is [l2] with some elements left out. *)
Inductive subseq {A : Type} : list A -> list A -> Prop :=
| subseq_nil : subseq [] []
| subseq_skip : forall x l1 l2, subseq l1 l2 -> subseq l1 (x :: l2)
| subseq_keep : forall x l1 l2, subseq l1 l2 -> subseq (x :: l1) (x :: l2).

(** The [n] low bits of [v], most significant first, as line levels. *)
Fixpoint msbLevels (n : nat) (v : Z) : list Z :=
  match n with
  | O => []
  | S k => Z.b2z (Z.testbit v (Z.of_nat k)) :: msbLevels k v
  end.

(** The wave form of a whole transaction on an idle bus (both lines high):
    START, the seven address bits, the direction bit, the ack bit, then for
    each byte of the payload its eight bits and its ack bit, and the STOP
    (the clock falls with the data line low, the clock rises, the data line
    rises). *)
Definition transactionLevels (addr : Z) (rw ack : bool)
           (payload : list (Z * bool)) : list (Z * Z) :=
  [(1, 0)]
  ++ flat_map bitLevels (msbLevels 7 addr)
  ++ bitLevels (Z.b2z rw)
  ++ bitLevels (Z.b2z ack)
  ++ flat_map (fun p => flat_map bitLevels (msbLevels 8 (fst p))
                        ++ bitLevels (Z.b2z (snd p))) payload
  ++ [(0, 0); (1, 0); (1, 1)].

Definition rwLabel (rw : bool) : string :=
  if rw then "READ"%string else "WRITE"%string.

Definition ackLabel (ack : bool) : string :=
  if ack then "NACK"%string else "ACK"%string.

(** The two events that are emitted together with a byte of the data
    channel. *)
Definition carriesByte (l : string) : bool :=
  String.eqb l "ADDRESS" || String.eqb l "DATA".

(** Bus traffic: transactions one after the other, each described by its
    address, direction bit, address ack bit and payload. *)
Record transaction : Type := mkTransaction {
  t_addr : Z;
  t_rw : bool;
  t_ack : bool;
  t_payload : list (Z * bool)
}.

Definition transactionOk (t : transaction) : Prop :=
  0 <= t_addr t < 128 /\ Forall (fun p => 0 <= fst p < 256) (t_payload t).

Definition trafficLevels (ts : list transaction) : list (Z * Z) :=
  flat_map (fun t => transactionLevels (t_addr t) (t_rw t) (t_ack t)
                                       (t_payload t)) ts.

Definition transactionLabels (t : transaction) : list string :=
  ["START"%string; "ADDRESS"%string; rwLabel (t_rw t); ackLabel (t_ack t)]
  ++ flat_map (fun p => ["DATA"%string; ackLabel (snd p)]) (t_payload t)
  ++ ["STOP"%string].

Definition transactionBytes (t : transaction) : list Z :=
  t_addr t :: map fst (t_payload t).

(** ** Basic facts on the embedding *)

Lemma conditions_eqb_eq (a b : conditions) :
  conditions_eqb a b = true <-> a = b.
Proof.
  split.
  - destruct a, b; simpl; intros H; try reflexivity; discriminate H.
  - intros ->. apply Z.eqb_refl.
Qed.

Lemma conditions_eqb_neq (a b : conditions) :
  conditions_eqb a b = false <-> a <> b.
Proof.
  rewrite <- conditions_eqb_eq. destruct (conditions_eqb a b); split; congruence.
Qed.

Lemma to_uint8_small (x : Z) : 0 <= x < 256 -> to_uint8 x = x.
Proof. intros H. unfold to_uint8. now apply Z.mod_small. Qed.

Lemma to_uint8_range (x : Z) : 0 <= to_uint8 x < 256.
Proof. unfold to_uint8. apply Z.mod_pos_bound. lia. Qed.

(** Boolean tests of the conditional chain, turned into propositions. *)
Ltac bool_hyps :=
  repeat match goal with
  | H : _ && _ = true |- _ => apply andb_true_iff in H; destruct H
  | H : negb _ = true |- _ => apply negb_true_iff in H
  | H : negb _ = false |- _ => apply negb_false_iff in H
  | H : (_ =? _) = true |- _ => apply Z.eqb_eq in H
  | H : (_ =? _) = false |- _ => apply Z.eqb_neq in H
  | H : conditions_eqb _ _ = true |- _ => apply conditions_eqb_eq in H
  | H : conditions_eqb _ _ = false |- _ => apply conditions_eqb_neq in H
  end.

(** Case analysis on the branch [handleState] takes. *)
Ltac branches :=
  unfold handleState;
  repeat match goal with
  | |- context [if ?c then _ else _] => destruct c eqn:?
  end.

Lemma run_cons (d : decoder) (s : sample) (rest : list sample) :
  run d (s :: rest) =
  (fst (run (fst (handleState d (s_scl s) (s_sda s) (s_time s))) rest),
   snd (handleState d (s_scl s) (s_sda s) (s_time s))
   ++ snd (run (fst (handleState d (s_scl s) (s_sda s) (s_time s))) rest)).
Proof.
  simpl. destruct (handleState d (s_scl s) (s_sda s) (s_time s)) as [d1 o1].
  simpl. destruct (run d1 rest) as [d2 o2]. reflexivity.
Qed.

Lemma run_app (d : decoder) (l1 l2 : list sample) :
  run d (l1 ++ l2) =
  (fst (run (fst (run d l1)) l2), snd (run d l1) ++ snd (run (fst (run d l1)) l2)).
Proof.
  revert d. induction l1 as [|s l1 IH]; intros d.
  - simpl. now destruct (run d l2).
  - rewrite <- app_comm_cons, !run_cons, IH. simpl. now rewrite app_assoc.
Qed.

(** The start and stop tests select their branch: none of the three tests
    before them can hold at the same time. *)
Lemma handleState_start (d : decoder) (sclValue sdaValue time : Z) :
  startCondition d sclValue sdaValue = true ->
  handleState d sclValue sdaValue time =
  ({| state := READ_ADDR; scl := 1; sda := 0; pos := 0; byteBuffer := 0 |},
   [EventOut time (if conditions_eqb (state d) IDLE
                   then "START"%string else "START(odd)"%string)]).
Proof.
  unfold startCondition. intros H. bool_hyps. subst sclValue sdaValue.
  unfold handleState. rewrite H, H2. simpl.
  now destruct (conditions_eqb (state d) IDLE).
Qed.

Lemma handleState_stop (d : decoder) (sclValue sdaValue time : Z) :
  stopCondition d sclValue sdaValue = true ->
  handleState d sclValue sdaValue time =
  ({| state := IDLE; scl := 1; sda := 1; pos := pos d; byteBuffer := byteBuffer d |},
   [EventOut time "STOP"%string]).
Proof.
  unfold stopCondition. intros H. bool_hyps. subst sclValue sdaValue.
  unfold handleState. rewrite H, H2. reflexivity.
Qed.

(** The final [else]: reached by a bit sample edge when no state-guarded
    branch applies.  The arguments of the format are the state and, twice,
    the stored levels [d->scl], [d->sda]. *)
Lemma handleState_unhandled (d : decoder) (sclValue sdaValue time : Z) :
  bitSampleEdge d sclValue sdaValue = true ->
  state d = IDLE \/ state d = INVALID \/ sclValue <> 1 ->
  handleState d sclValue sdaValue time =
  (setLevels d sclValue sdaValue,
   [IoPrint msgUnhandled;
    IoPrintf fmtUnhandled
      [conditions_value (state d); scl d; sda d; scl d; sda d]]).
Proof.
  unfold bitSampleEdge, startCondition, stopCondition. intros H Hs.
  repeat (apply andb_true_iff in H; destruct H as [H ?]).
  repeat match goal with
  | H : negb _ = true |- _ => apply negb_true_iff in H
  end.
  unfold handleState.
  repeat match goal with
  | H : ?c = false |- context [if ?c then _ else _] => rewrite H
  end.
  assert (E : forall c, c <> IDLE -> c <> INVALID ->
                conditions_eqb (state d) c && (sclValue =? 1) = false).
  { intros c Hc Hc'. apply andb_false_iff.
    destruct Hs as [Hs | [Hs | Hs]].
    - left. apply conditions_eqb_neq. congruence.
    - left. apply conditions_eqb_neq. congruence.
    - right. now apply Z.eqb_neq. }
  rewrite !E by discriminate. reflexivity.
Qed.

(** On a bit sample edge the new levels differ from the stored ones, so the
    last two arguments of the diagnostic never are the new levels. *)
Lemma unhandled_levels_differ (d : decoder) (sclValue sdaValue : Z) :
  bitSampleEdge d sclValue sdaValue = true ->
  (scl d, sda d) <> (sclValue, sdaValue).
Proof.
  unfold bitSampleEdge. intros H E. injection E as Ec Ea.
  rewrite Ec, Ea, !Z.eqb_refl in H. discriminate H.
Qed.

(** With single-bit levels and the stored clock high, a row with the clock
    high is a no-change, a start or a stop condition, never a bit sample
    edge: a bit reaches the decoder on a rising clock only. *)
Lemma clock_high_rows_no_edge (d : decoder) (sdaValue : Z) :
  scl d = 1 -> sda d = 0 \/ sda d = 1 -> sdaValue = 0 \/ sdaValue = 1 ->
  bitSampleEdge d 1 sdaValue = false.
Proof.
  unfold bitSampleEdge, startCondition, stopCondition.
  intros -> [-> | ->] [-> | ->]; reflexivity.
Qed.

(** ** The round trip scenario *)

(** C1.  The write transaction of the scenario (idle bus, START, address bits
    1,0,1,0,0,0,0, direction bit 0, ack bit 0, eight data bits 1, nack bit 1,
    STOP), whatever the time tags and whatever the decoder block held at
    creation, makes the decoder emit exactly START, ADDRESS, WRITE, ACK, DATA,
    NACK, STOP in that order, with byte 0x50 on the data channel at the time
    of the ADDRESS event and byte 0xFF at the time of the DATA event, and
    leaves the decoder in IDLE. *)
Theorem C1_write_transaction (pos0 byteBuffer0 : Z) (tm : nat -> Z) :
  let r := decode pos0 byteBuffer0 (stamp tm 0 writeTransaction) in
  snd r =
    [EventOut (tm 1%nat) "START"; EventOut (tm 15%nat) "ADDRESS";
     DataOut (tm 15%nat) 80; EventOut (tm 17%nat) "WRITE";
     EventOut (tm 19%nat) "ACK"; DataOut (tm 35%nat) 255;
     EventOut (tm 35%nat) "DATA"; EventOut (tm 37%nat) "NACK";
     EventOut (tm 41%nat) "STOP"]
  /\ map snd (eventChannel (snd r)) =
       ["START"; "ADDRESS"; "WRITE"; "ACK"; "DATA"; "NACK"; "STOP"]%string
  /\ dataChannel (snd r) = [(tm 15%nat, 80); (tm 35%nat, 255)]
  /\ ioChannel (snd r) = []
  /\ state (fst r) = IDLE.
Proof.
  repeat split; vm_compute; reflexivity.
Qed.

(** ** Single transitions *)

(** C3.  A row that is a start condition (stored levels 1,1, new levels 1,0)
    emits exactly one event, START when the decoder is in IDLE and START(odd)
    when it is in any other state, and leaves the decoder in READ_ADDR with
    [pos = 0] and [byteBuffer = 0].  This holds for every decoder value, in
    particular for every reachable one. *)
Theorem C3_start_tagging (d : decoder) (time : Z) :
  scl d = 1 -> sda d = 1 ->
  (state d = IDLE ->
   snd (handleState d 1 0 time) = [EventOut time "START"])
  /\ (state d <> IDLE ->
      snd (handleState d 1 0 time) = [EventOut time "START(odd)"])
  /\ fst (handleState d 1 0 time) =
     {| state := READ_ADDR; scl := 1; sda := 0; pos := 0; byteBuffer := 0 |}.
Proof.
  intros Hc Ha.
  assert (S : startCondition d 1 0 = true).
  { unfold startCondition. now rewrite Hc, Ha. }
  rewrite (handleState_start d 1 0 time S). simpl. repeat split.
  - intros ->. reflexivity.
  - intros Hn. apply conditions_eqb_neq in Hn. now rewrite Hn.
Qed.

Lemma C3_start_tagging_witness :
  let d := {| state := READ_DATA; scl := 1; sda := 1; pos := 3; byteBuffer := 160 |} in
  (state d = IDLE -> snd (handleState d 1 0 5) = [EventOut 5 "START"])
  /\ (state d <> IDLE -> snd (handleState d 1 0 5) = [EventOut 5 "START(odd)"])
  /\ fst (handleState d 1 0 5) =
     {| state := READ_ADDR; scl := 1; sda := 0; pos := 0; byteBuffer := 0 |}.
Proof.
  exact (C3_start_tagging
           {| state := READ_DATA; scl := 1; sda := 1; pos := 3; byteBuffer := 160 |}
           5 eq_refl eq_refl).
Defined.

(** C8.  A row that is a stop condition (stored levels 1,0, new levels 1,1)
    emits exactly one STOP event and sets the state to IDLE, whatever the
    current state is, IDLE included; [pos] and [byteBuffer] are kept. *)
Theorem C8_stop_any_state (d : decoder) (time : Z) :
  scl d = 1 -> sda d = 0 ->
  handleState d 1 1 time =
  ({| state := IDLE; scl := 1; sda := 1; pos := pos d; byteBuffer := byteBuffer d |},
   [EventOut time "STOP"%string]).
Proof.
  intros Hc Ha. apply handleState_stop.
  unfold stopCondition. now rewrite Hc, Ha.
Qed.

Lemma C8_stop_any_state_witness :
  handleState {| state := IDLE; scl := 1; sda := 0; pos := 0; byteBuffer := 0 |} 1 1 9 =
  ({| state := IDLE; scl := 1; sda := 1; pos := 0; byteBuffer := 0 |},
   [EventOut 9 "STOP"%string]).
Proof.
  exact (C8_stop_any_state
           {| state := IDLE; scl := 1; sda := 0; pos := 0; byteBuffer := 0 |}
           9 eq_refl eq_refl).
Defined.

(** Rows whose levels are all the same, fed to a decoder that already stores
    these levels, are skipped. *)
Lemma run_same_levels (d : decoder) (rest : list sample) :
  Forall (fun s => s_scl s = scl d /\ s_sda s = sda d) rest ->
  run d rest = (d, []).
Proof.
  induction 1 as [|s rest [Hc Ha] _ IH].
  - reflexivity.
  - rewrite run_cons. unfold handleState at 1 2 3.
    rewrite Hc, Ha, !Z.eqb_refl. simpl. now rewrite IH.
Qed.

(** C6.  A row whose clock and data levels equal the stored levels leaves the
    whole decoder as it is ([state], [pos], [byteBuffer], [scl], [sda]) and
    emits nothing.  Hence, once a row with levels that fit the 8-bit fields
    (single bits in particular) has been processed, any number of further
    rows with the same levels is a no-op. *)
Theorem C6_no_change_idempotent (d : decoder) (sclValue sdaValue time : Z) :
  (scl d = sclValue -> sda d = sdaValue ->
   handleState d sclValue sdaValue time = (d, []))
  /\ (0 <= sclValue < 256 -> 0 <= sdaValue < 256 ->
      forall rest : list sample,
        Forall (fun s => s_scl s = sclValue /\ s_sda s = sdaValue) rest ->
        run (fst (handleState d sclValue sdaValue time)) rest =
        (fst (handleState d sclValue sdaValue time), [])).
Proof.
  split.
  - intros Hc Ha. unfold handleState. now rewrite Hc, Ha, !Z.eqb_refl.
  - intros Rc Ra rest Hrest. apply run_same_levels.
    assert (L : scl (fst (handleState d sclValue sdaValue time)) = sclValue
                /\ sda (fst (handleState d sclValue sdaValue time)) = sdaValue).
    { branches; simpl; bool_hyps; rewrite ?to_uint8_small by assumption;
        auto. }
    destruct L as [-> ->]. exact Hrest.
Qed.

Lemma C6_no_change_idempotent_witness :
  let d := {| state := READ_ADDR; scl := 0; sda := 1; pos := 2; byteBuffer := 128 |} in
  handleState d 0 1 7 = (d, [])
  /\ run (fst (handleState d 1 1 7)) [mkSample 1 1 8; mkSample 1 1 9] =
     (fst (handleState d 1 1 7), []).
Proof.
  split.
  - exact (proj1 (C6_no_change_idempotent
             {| state := READ_ADDR; scl := 0; sda := 1; pos := 2; byteBuffer := 128 |}
             0 1 7) eq_refl eq_refl).
  - apply (proj2 (C6_no_change_idempotent
             {| state := READ_ADDR; scl := 0; sda := 1; pos := 2; byteBuffer := 128 |}
             1 1 7)); [lia | lia |].
    repeat constructor.
Defined.

(** C7.  A row with the clock low on which the data level differs from the
    stored one, the stored clock not being high (so the row is neither a
    no-change nor a falling clock), emits nothing and keeps [state], [pos] and
    [byteBuffer], whatever the state is; the stored levels become the new
    ones. *)
Theorem C7_clock_low_masking (d : decoder) (sdaValue time : Z) :
  scl d <> 1 -> sda d <> sdaValue -> 0 <= sdaValue < 256 ->
  handleState d 0 sdaValue time =
  ({| state := state d; scl := 0; sda := sdaValue;
      pos := pos d; byteBuffer := byteBuffer d |}, []).
Proof.
  intros Hc Ha Hr. unfold handleState.
  apply Z.eqb_neq in Hc, Ha. rewrite Hc, Ha, andb_false_r. simpl.
  unfold setLevels. now rewrite (to_uint8_small sdaValue Hr).
Qed.

Lemma C7_clock_low_masking_witness :
  handleState {| state := READ_DATA; scl := 0; sda := 1; pos := 4; byteBuffer := 240 |}
              0 0 11 =
  ({| state := READ_DATA; scl := 0; sda := 0; pos := 4; byteBuffer := 240 |}, []).
Proof.
  apply (C7_clock_low_masking
           {| state := READ_DATA; scl := 0; sda := 1; pos := 4; byteBuffer := 240 |}
           0 11); simpl; lia.
Defined.

(** C5.  A fresh decoder is fed the rows (SCL=0, SDA=1) and (SCL=1, SDA=1).
    The second row is a bit sample edge in IDLE, which has no handler.  It
    keeps [state], [pos] and [byteBuffer] and makes the two calls on [io] of
    the final [else]; the arguments of the format are the state 0 and the
    stored levels 0,1 twice: the positions labelled [scl] and [sda] in the
    format receive [d->scl] and [d->sda], not the new levels 1,1. *)
Theorem C5_diagnostic_repeats_stored_levels (pos0 byteBuffer0 : Z) :
  let d := fst (decode pos0 byteBuffer0 [mkSample 0 1 10]) in
  d = {| state := IDLE; scl := 0; sda := 1; pos := pos0; byteBuffer := byteBuffer0 |}
  /\ bitSampleEdge d 1 1 = true
  /\ handleState d 1 1 20 =
     ({| state := IDLE; scl := 1; sda := 1; pos := pos0; byteBuffer := byteBuffer0 |},
      [IoPrint msgUnhandled; IoPrintf fmtUnhandled [0; 0; 1; 0; 1]]).
Proof.
  repeat split.
Qed.

(** ** Data channel *)

(** One call.  If a call of [handleState] writes a record to the data
    channel, the record carries the time tag of the row, and the call is
    either the seventh address bit in READ_ADDR, whose outputs are exactly the
    ADDRESS event and the byte, or the eighth data bit in READ_DATA, whose
    outputs are exactly the byte and the DATA event, both with the same time
    tag; the byte is the buffer completed with the sampled bit. *)
Lemma data_out_step (d : decoder) (sclValue sdaValue time t v : Z) :
  In (DataOut t v) (snd (handleState d sclValue sdaValue time)) ->
  t = time
  /\ ((state d = READ_ADDR /\ to_uint8 (pos d + 1) = 7
       /\ v = to_uint8 (Z.lor (byteBuffer d) (shl_uint sdaValue (6 - pos d)))
       /\ snd (handleState d sclValue sdaValue time) =
          [EventOut time "ADDRESS"; DataOut time v])
      \/ (state d = READ_DATA /\ to_uint8 (pos d + 1) = 8
          /\ v = to_uint8 (Z.lor (byteBuffer d) (shl_uint sdaValue (7 - pos d)))
          /\ snd (handleState d sclValue sdaValue time) =
             [DataOut time v; EventOut time "DATA"])).
Proof.
  branches; simpl; intros H;
    repeat match goal with
    | H : _ \/ _ |- _ => destruct H
    | H : False |- _ => destruct H
    | H : EventOut _ _ = DataOut _ _ |- _ => discriminate H
    | H : IoPrint _ = DataOut _ _ |- _ => discriminate H
    | H : IoPrintf _ _ = DataOut _ _ |- _ => discriminate H
    | H : DataOut _ _ = DataOut _ _ |- _ => injection H as <- <-
    end; bool_hyps; split; auto.
Qed.

(** A whole run.  In the outputs of a run, a record of the data channel
    stands right after an ADDRESS event or right before a DATA event with the
    same time tag. *)
Lemma data_out_run (samples : list sample) :
  forall (d : decoder) (pre post : list output) (t v : Z),
    snd (run d samples) = pre ++ DataOut t v :: post ->
    (exists before, pre = before ++ [EventOut t "ADDRESS"])
    \/ (exists after, post = EventOut t "DATA" :: after).
Proof.
  induction samples as [|s rest IH]; intros d pre post t v E.
  - simpl in E. destruct pre; discriminate E.
  - rewrite run_cons in E. simpl in E.
    apply app_eq_app in E. destruct E as [l [[E1 E2] | [E1 E2]]].
    + destruct l as [|x l].
      * simpl in E2. symmetry in E2.
        destruct (IH _ [] post t v E2) as [[b Hb] | R]; [|now right].
        destruct b; discriminate Hb.
      * simpl in E2. injection E2 as <- ->.
        assert (I : In (DataOut t v)
                       (snd (handleState d (s_scl s) (s_sda s) (s_time s)))).
        { rewrite E1. apply in_elt. }
        apply data_out_step in I.
        destruct I as [-> [(_ & _ & _ & O) | (_ & _ & _ & O)]];
          rewrite O in E1.
        -- left. destruct pre as [|a [|b pre]]; try discriminate E1.
           ++ injection E1 as <-. now exists [].
           ++ injection E1 as _ _ E1. destruct pre; discriminate E1.
        -- right. destruct pre as [|a [|b pre]]; try discriminate E1.
           ++ injection E1 as <-. now eexists.
           ++ injection E1 as _ _ E1. destruct pre; discriminate E1.
    + destruct (IH _ l post t v E2) as [[b ->] | R]; [|now right].
      left. exists (snd (handleState d (s_scl s) (s_sda s) (s_time s)) ++ b).
      rewrite E1. now rewrite app_assoc.
Qed.

(** C10.  Every call of [handleState] either writes nothing to the data
    channel, or is the completion of the 7-bit address in READ_ADDR and emits
    exactly the ADDRESS event and the byte, or is the completion of the 8-bit
    data field in READ_DATA and emits exactly the byte and the DATA event; the
    byte and its event carry the time tag of the row.  Hence in a whole
    session every record of the data channel stands next to its ADDRESS or
    DATA event with the same time tag. *)
Theorem C10_data_paired_with_event :
  (forall (d : decoder) (sclValue sdaValue time : Z),
     let out := snd (handleState d sclValue sdaValue time) in
     dataChannel out = []
     \/ (state d = READ_ADDR /\ to_uint8 (pos d + 1) = 7
         /\ out = [EventOut time "ADDRESS";
                   DataOut time (to_uint8 (Z.lor (byteBuffer d)
                                             (shl_uint sdaValue (6 - pos d))))])
     \/ (state d = READ_DATA /\ to_uint8 (pos d + 1) = 8
         /\ out = [DataOut time (to_uint8 (Z.lor (byteBuffer d)
                                             (shl_uint sdaValue (7 - pos d))));
                   EventOut time "DATA"]))
  /\ (forall (pos0 byteBuffer0 : Z) (samples : list sample)
        (pre post : list output) (t v : Z),
        snd (decode pos0 byteBuffer0 samples) = pre ++ DataOut t v :: post ->
        (exists before, pre = before ++ [EventOut t "ADDRESS"])
        \/ (exists after, post = EventOut t "DATA" :: after)).
Proof.
  split.
  - intros d sclValue sdaValue time.
    branches; simpl; bool_hyps; auto 6.
  - intros pos0 byteBuffer0 samples. unfold decode. apply data_out_run.
Qed.

Lemma C10_data_paired_with_event_witness :
  (exists before,
      [EventOut 1 "START"; EventOut 15 "ADDRESS"] =
      before ++ [EventOut 15 "ADDRESS"])
  \/ (exists after,
         [EventOut 17 "WRITE"; EventOut 19 "ACK"; DataOut 35 255;
          EventOut 35 "DATA"; EventOut 37 "NACK"; EventOut 41 "STOP"] =
         EventOut 15 "DATA" :: after).
Proof.
  apply (proj2 C10_data_paired_with_event 0 0
           (stamp Z.of_nat 0 writeTransaction) _ _ 15 80).
  vm_compute. reflexivity.
Defined.

(** ** Invariant of a session *)

Lemma sessionInv_new (pos0 byteBuffer0 : Z) :
  sessionInv pos0 byteBuffer0 (newDecoder pos0 byteBuffer0).
Proof. unfold sessionInv. simpl. now right. Qed.

Lemma sessionInv_step (pos0 byteBuffer0 : Z) (d : decoder)
      (sclValue sdaValue time : Z) :
  sessionInv pos0 byteBuffer0 d ->
  sessionInv pos0 byteBuffer0 (fst (handleState d sclValue sdaValue time)).
Proof.
  unfold sessionInv.
  branches; simpl; bool_hyps; intros I;
    repeat match goal with
    | H : state d = _ |- _ => rewrite H in I
    end;
    try (unfold to_uint8 in *; rewrite Z.mod_small in * by lia);
    try assumption; try lia.
  destruct (state d); intuition lia.
Qed.

Lemma reachable_sessionInv (pos0 byteBuffer0 : Z) (d : decoder) :
  reachable pos0 byteBuffer0 d -> sessionInv pos0 byteBuffer0 d.
Proof.
  induction 1.
  - apply sessionInv_new.
  - now apply sessionInv_step.
Qed.

(** X16.  In a session the two shifts of [handleState] have a shift count
    within the width of the operand: between 0 and 6 in READ_ADDR, between 0
    and 7 in READ_DATA. *)
Lemma shift_count_in_range (pos0 byteBuffer0 : Z) (d : decoder) :
  reachable pos0 byteBuffer0 d ->
  (state d = READ_ADDR -> 0 <= 6 - pos d <= 6)
  /\ (state d = READ_DATA -> 0 <= 7 - pos d <= 7).
Proof.
  intros R. apply reachable_sessionInv in R. unfold sessionInv in R.
  split; intros E; rewrite E in R; lia.
Qed.

(** C4, as stated, fails at creation.  [newDecoder] does not assign [pos]:
    when the block holds 200 there, the decoder it returns, which is
    reachable, has [pos] above 8. *)
Lemma C4_counterexample :
  reachable 200 0 (newDecoder 200 0) /\ ~ pos (newDecoder 200 0) <= 8.
Proof.
  split.
  - constructor.
  - simpl. lia.
Qed.

(** C4, amended.  In every decoder reachable from creation, [pos] is between
    0 and 7, so it never exceeds 8, unless the decoder is in IDLE and [pos]
    and [byteBuffer] still hold what the block held at creation; in
    particular [pos] never exceeds 8 when the value at creation does not.
    [pos] and [byteBuffer] are both 0 right after each entry of a field: after
    a start condition, which enters READ_ADDR, after the step from READ_ACK
    to READ_DATA, and after the step from READ_RW to READ_ACK. *)
Theorem C4_position_invariant (pos0 byteBuffer0 : Z) (d : decoder) :
  reachable pos0 byteBuffer0 d ->
  (0 <= pos d <= 7
   \/ (state d = IDLE /\ pos d = pos0 /\ byteBuffer d = byteBuffer0))
  /\ (pos0 <= 8 -> pos d <= 8)
  /\ (forall sclValue sdaValue time : Z,
        let d' := fst (handleState d sclValue sdaValue time) in
        (startCondition d sclValue sdaValue = true ->
         state d' = READ_ADDR /\ pos d' = 0 /\ byteBuffer d' = 0)
        /\ (state d = READ_ACK -> state d' = READ_DATA ->
            pos d' = 0 /\ byteBuffer d' = 0)
        /\ (state d = READ_RW -> state d' = READ_ACK ->
            pos d' = 0 /\ byteBuffer d' = 0)).
Proof.
  intros R. apply reachable_sessionInv in R.
  assert (A : 0 <= pos d <= 7
              \/ (state d = IDLE /\ pos d = pos0 /\ byteBuffer d = byteBuffer0)).
  { unfold sessionInv in R. destruct (state d); intuition lia. }
  split; [exact A|]. split; [intuition lia|].
  intros sclValue sdaValue time d'. subst d'. split; [|split].
  - intros S. now rewrite (handleState_start _ _ _ _ S).
  - intros S. unfold sessionInv in R. rewrite S in R.
    branches; simpl; bool_hyps; intros S'; split; congruence || tauto.
  - intros S. unfold sessionInv in R. rewrite S in R.
    branches; simpl; bool_hyps; intros S'; split; congruence || tauto.
Qed.

Lemma C4_position_invariant_witness :
  let d := fst (handleState (newDecoder 200 77) 1 0 1) in
  (0 <= pos d <= 7 \/ (state d = IDLE /\ pos d = 200 /\ byteBuffer d = 77))
  /\ (200 <= 8 -> pos d <= 8)
  /\ (forall sclValue sdaValue time : Z,
        let d' := fst (handleState d sclValue sdaValue time) in
        (startCondition d sclValue sdaValue = true ->
         state d' = READ_ADDR /\ pos d' = 0 /\ byteBuffer d' = 0)
        /\ (state d = READ_ACK -> state d' = READ_DATA ->
            pos d' = 0 /\ byteBuffer d' = 0)
        /\ (state d = READ_RW -> state d' = READ_ACK ->
            pos d' = 0 /\ byteBuffer d' = 0)).
Proof.
  apply (C4_position_invariant 200 77
           (fst (handleState (newDecoder 200 77) 1 0 1))).
  apply reach_step. apply reach_new.
Defined.

(** ** Outputs and start conditions *)

Lemma preceded_true (tr : list output) : preceded true tr = true.
Proof. induction tr as [|o tr IH]; simpl; auto. Qed.

Lemma preceded_app (seen : bool) (a b : list output) :
  preceded seen (a ++ b) =
  preceded seen a && preceded (seen || existsb isStartOut a) b.
Proof.
  revert seen. induction a as [|o a IH]; intros seen; simpl.
  - now rewrite orb_false_r.
  - rewrite IH. now rewrite andb_assoc, orb_assoc.
Qed.

Lemma preceded_sound (tr : list output) :
  forall (seen : bool) (pre post : list output) (o : output),
    preceded seen tr = true ->
    tr = pre ++ o :: post ->
    inTransaction o = true ->
    seen = true \/ exists s, In s pre /\ isStartOut s = true.
Proof.
  induction tr as [|x tr IH]; intros seen pre post o P E T.
  - destruct pre; discriminate E.
  - simpl in P. apply andb_true_iff in P. destruct P as [P1 P2].
    destruct pre as [|y pre]; simpl in E; injection E as -> ->.
    + rewrite T in P1. simpl in P1. rewrite orb_false_r in P1. now left.
    + destruct (IH _ pre post o P2 eq_refl T) as [S | [s [I S]]].
      * apply orb_true_iff in S. destruct S as [S | S]; [now left|].
        right. exists y. simpl. auto.
      * right. exists s. simpl. auto.
Qed.

(** One call in IDLE: nothing of a transaction is emitted, and the decoder
    stays in IDLE unless the call emits a start event. *)
Lemma idle_step (d : decoder) (sclValue sdaValue time : Z) :
  state d = IDLE ->
  preceded false (snd (handleState d sclValue sdaValue time)) = true
  /\ (state (fst (handleState d sclValue sdaValue time)) = IDLE
      \/ existsb isStartOut (snd (handleState d sclValue sdaValue time)) = true).
Proof.
  intros I. branches; simpl; bool_hyps; auto; congruence.
Qed.

Lemma idle_run_preceded (samples : list sample) :
  forall d : decoder,
    state d = IDLE -> preceded false (snd (run d samples)) = true.
Proof.
  induction samples as [|s rest IH]; intros d I.
  - reflexivity.
  - rewrite run_cons. simpl snd. rewrite preceded_app. simpl.
    destruct (idle_step d (s_scl s) (s_sda s) (s_time s) I) as [P [Q | Q]].
    + rewrite P. simpl.
      destruct (existsb isStartOut _).
      * apply preceded_true.
      * now apply IH.
    + rewrite P, Q. apply preceded_true.
Qed.

(** One call in IDLE on a row that is not a start condition: the decoder
    stays in IDLE and the call emits nothing, or the STOP event, or the two
    diagnostic calls. *)
Lemma idle_step_no_start (d : decoder) (sclValue sdaValue time : Z) :
  state d = IDLE ->
  startCondition d sclValue sdaValue = false ->
  state (fst (handleState d sclValue sdaValue time)) = IDLE
  /\ dataChannel (snd (handleState d sclValue sdaValue time)) = []
  /\ Forall (fun e => snd e = "STOP"%string)
            (eventChannel (snd (handleState d sclValue sdaValue time))).
Proof.
  unfold startCondition. intros I S.
  branches; simpl; bool_hyps; try congruence;
    repeat split; auto.
Qed.

Lemma idle_run_no_start (samples : list sample) :
  forall d : decoder,
    state d = IDLE ->
    startFree d samples = true ->
    dataChannel (snd (run d samples)) = []
    /\ Forall (fun e => snd e = "STOP"%string) (eventChannel (snd (run d samples))).
Proof.
  induction samples as [|s rest IH]; intros d I F.
  - simpl. auto.
  - simpl in F. apply andb_true_iff in F. destruct F as [F1 F2].
    apply negb_true_iff in F1.
    destruct (idle_step_no_start d (s_scl s) (s_sda s) (s_time s) I F1)
      as (I' & D & E).
    destruct (IH _ I' F2) as [D' E'].
    rewrite run_cons. simpl snd. unfold dataChannel, eventChannel in *.
    rewrite !flat_map_app. split.
    + now rewrite D, D'.
    + apply Forall_app. now split.
Qed.

(** C9.  In a session whose rows contain no start condition, nothing is
    written to the data channel and every event is STOP.  In any session,
    every byte of the data channel and every ADDRESS, WRITE, READ, ACK, NACK
    or DATA event comes, in the order of emission, after a START or
    START(odd) event. *)
Theorem C9_start_precedes_transaction (pos0 byteBuffer0 : Z)
        (samples : list sample) :
  let tr := snd (decode pos0 byteBuffer0 samples) in
  (startFree (newDecoder pos0 byteBuffer0) samples = true ->
   dataChannel tr = []
   /\ Forall (fun e => snd e = "STOP"%string) (eventChannel tr))
  /\ (forall (pre post : list output) (o : output),
        tr = pre ++ o :: post ->
        inTransaction o = true ->
        exists s, In s pre /\ isStartOut s = true).
Proof.
  unfold decode. split.
  - intros F. now apply idle_run_no_start.
  - intros pre post o E T.
    assert (P : preceded false (snd (run (newDecoder pos0 byteBuffer0) samples))
                = true) by now apply idle_run_preceded.
    destruct (preceded_sound _ _ _ _ _ P E T) as [S | S];
      [discriminate S | exact S].
Qed.

Lemma C9_start_precedes_transaction_witness :
  (dataChannel (snd (decode 0 0 (stamp Z.of_nat 0 [(0, 1); (0, 0); (1, 0); (1, 1)]))) = []
   /\ Forall (fun e => snd e = "STOP"%string)
        (eventChannel
           (snd (decode 0 0 (stamp Z.of_nat 0 [(0, 1); (0, 0); (1, 0); (1, 1)])))))
  /\ (exists s, In s [EventOut 1 "START"] /\ isStartOut s = true).
Proof.
  split.
  - apply (proj1 (C9_start_precedes_transaction 0 0
                    (stamp Z.of_nat 0 [(0, 1); (0, 0); (1, 0); (1, 1)]))).
    vm_compute. reflexivity.
  - apply (proj2 (C9_start_precedes_transaction 0 0
                    (stamp Z.of_nat 0 writeTransaction))
                 [EventOut 1 "START"]
                 [DataOut 15 80; EventOut 17 "WRITE";
                  EventOut 19 "ACK"; DataOut 35 255;
                  EventOut 35 "DATA"; EventOut 37 "NACK"; EventOut 41 "STOP"]
                 (EventOut 15 "ADDRESS")).
    + vm_compute. reflexivity.
    + vm_compute. reflexivity.
Defined.

(** ** Bit order *)

Lemma edge_tests (d : decoder) (sclValue sdaValue : Z) :
  bitSampleEdge d sclValue sdaValue = true ->
  (scl d =? sclValue) && (sda d =? sdaValue) = false
  /\ (scl d =? 1) && (sclValue =? 0) = false
  /\ (sclValue =? 0) = false
  /\ (scl d =? 1) && (sda d =? 1) && (sclValue =? 1) && (sdaValue =? 0) = false
  /\ (scl d =? 1) && (sda d =? 0) && (sclValue =? 1) && (sdaValue =? 1) = false.
Proof.
  unfold bitSampleEdge, startCondition, stopCondition. intros H.
  repeat (apply andb_true_iff in H; destruct H as [H ?]).
  repeat match goal with
  | H : negb _ = true |- _ => apply negb_true_iff in H
  end.
  auto.
Qed.

(** A row that is neither a bit sample edge nor a start nor a stop condition
    is ignored. *)
Lemma ignored_step (d : decoder) (sclValue sdaValue time : Z) :
  bitSampleEdge d sclValue sdaValue = false ->
  startCondition d sclValue sdaValue = false ->
  stopCondition d sclValue sdaValue = false ->
  snd (handleState d sclValue sdaValue time) = []
  /\ state (fst (handleState d sclValue sdaValue time)) = state d
  /\ pos (fst (handleState d sclValue sdaValue time)) = pos d
  /\ byteBuffer (fst (handleState d sclValue sdaValue time)) = byteBuffer d.
Proof.
  intros E S P. unfold bitSampleEdge in E. rewrite S, P in E.
  unfold handleState.
  destruct ((scl d =? sclValue) && (sda d =? sdaValue)); [now simpl|].
  destruct ((scl d =? 1) && (sclValue =? 0)); [now simpl|].
  destruct (sclValue =? 0); [now simpl|].
  discriminate E.
Qed.

(** The rows up to the next bit sample edge change nothing but the stored
    levels, and the run goes on from the call of [handleState] on the edge. *)
Lemma next_edge (rows : list sample) :
  forall (d : decoder) (b : bool) (t : Z) (edges : list (bool * Z)),
    delivers d rows ((b, t) :: edges) = true ->
    exists (d1 : decoder) (rest : list sample),
      state d1 = state d /\ pos d1 = pos d /\ byteBuffer d1 = byteBuffer d
      /\ bitSampleEdge d1 1 (Z.b2z b) = true
      /\ run d rows =
         (fst (run (fst (handleState d1 1 (Z.b2z b) t)) rest),
          snd (handleState d1 1 (Z.b2z b) t)
          ++ snd (run (fst (handleState d1 1 (Z.b2z b) t)) rest))
      /\ delivers (fst (handleState d1 1 (Z.b2z b) t)) rest edges = true.
Proof.
  induction rows as [|s rest IH]; intros d b t edges D.
  - discriminate D.
  - cbn [delivers] in D.
    destruct (bitSampleEdge d (s_scl s) (s_sda s)) eqn:E.
    + bool_hyps. exists d, rest. rewrite run_cons.
      destruct s as [c a tm]. simpl in *. subst. auto 10.
    + apply andb_true_iff in D. destruct D as [D D3].
      apply andb_true_iff in D. destruct D as [D1 D2].
      apply negb_true_iff in D1, D2.
      destruct (ignored_step d _ _ (s_time s) E D1 D2) as (O & S & P & B).
      destruct (IH _ b t edges D3) as (d1 & rest' & S1 & P1 & B1 & E1 & R1 & F1).
      exists d1, rest'. rewrite run_cons, O, R1. simpl.
      repeat split; congruence.
Qed.

(** Rows without any bit sample edge, start or stop emit nothing and keep
    [state], [pos] and [byteBuffer]. *)
Lemma delivers_nil (rows : list sample) :
  forall d : decoder,
    delivers d rows [] = true ->
    snd (run d rows) = []
    /\ state (fst (run d rows)) = state d
    /\ pos (fst (run d rows)) = pos d
    /\ byteBuffer (fst (run d rows)) = byteBuffer d.
Proof.
  induction rows as [|s rest IH]; intros d D.
  - simpl. auto.
  - cbn [delivers] in D.
    destruct (bitSampleEdge d (s_scl s) (s_sda s)) eqn:E; [discriminate D|].
    apply andb_true_iff in D. destruct D as [D D3].
    apply andb_true_iff in D. destruct D as [D1 D2].
    apply negb_true_iff in D1, D2.
    destruct (ignored_step d _ _ (s_time s) E D1 D2) as (O & S & P & B).
    destruct (IH _ D3) as (O' & S' & P' & B').
    rewrite run_cons, O. simpl. repeat split; congruence.
Qed.

(** The call on a bit sample edge with the clock at 1: READ_ADDR before and
    at the seventh bit, READ_DATA before and at the eighth bit. *)
Lemma addr_edge (d : decoder) (b : bool) (time : Z) :
  bitSampleEdge d 1 (Z.b2z b) = true -> state d = READ_ADDR ->
  handleState d 1 (Z.b2z b) time =
  let buf := to_uint8 (Z.lor (byteBuffer d) (shl_uint (Z.b2z b) (6 - pos d))) in
  if to_uint8 (pos d + 1) =? 7 then
    ({| state := READ_RW; scl := 1; sda := Z.b2z b; pos := 0; byteBuffer := 0 |},
     [EventOut time "ADDRESS"; DataOut time buf])
  else
    ({| state := READ_ADDR; scl := 1; sda := Z.b2z b;
        pos := to_uint8 (pos d + 1); byteBuffer := buf |}, []).
Proof.
  intros E S. destruct (edge_tests _ _ _ E) as (T1 & T2 & T3 & T4 & T5).
  unfold handleState. rewrite T1, T2, T3, T4, T5, S. simpl.
  destruct (to_uint8 (pos d + 1) =? 7); unfold setLevels; simpl;
    now destruct b.
Qed.

Lemma data_edge (d : decoder) (b : bool) (time : Z) :
  bitSampleEdge d 1 (Z.b2z b) = true -> state d = READ_DATA ->
  handleState d 1 (Z.b2z b) time =
  let buf := to_uint8 (Z.lor (byteBuffer d) (shl_uint (Z.b2z b) (7 - pos d))) in
  if to_uint8 (pos d + 1) =? 8 then
    ({| state := READ_ACK; scl := 1; sda := Z.b2z b; pos := 0; byteBuffer := 0 |},
     [DataOut time buf; EventOut time "DATA"])
  else
    ({| state := READ_DATA; scl := 1; sda := Z.b2z b;
        pos := to_uint8 (pos d + 1); byteBuffer := buf |}, []).
Proof.
  intros E S. destruct (edge_tests _ _ _ E) as (T1 & T2 & T3 & T4 & T5).
  unfold handleState. rewrite T1, T2, T3, T4, T5, S. simpl.
  destruct (to_uint8 (pos d + 1) =? 8); unfold setLevels; simpl;
    now destruct b.
Qed.

Lemma addr_next (rows : list sample) (d : decoder) (b : bool) (t : Z)
      (edges : list (bool * Z)) :
  state d = READ_ADDR -> 0 <= pos d < 6 ->
  delivers d rows ((b, t) :: edges) = true ->
  exists (d' : decoder) (rest : list sample),
    state d' = READ_ADDR /\ pos d' = pos d + 1
    /\ byteBuffer d' =
       to_uint8 (Z.lor (byteBuffer d) (shl_uint (Z.b2z b) (6 - pos d)))
    /\ run d rows = run d' rest
    /\ delivers d' rest edges = true.
Proof.
  intros S P D.
  destruct (next_edge rows d b t edges D) as (d1 & rest & S1 & P1 & B1 & E1 & R1 & F1).
  rewrite S in S1. rewrite (addr_edge d1 b t E1 S1) in R1, F1.
  cbv zeta in R1, F1. rewrite P1, B1, to_uint8_small in R1, F1 by lia.
  destruct (Z.eqb_spec (pos d + 1) 7) as [C | _]; [lia|].
  eexists. exists rest. simpl in R1, F1.
  repeat split; [.. | exact F1]; try reflexivity.
  rewrite R1. now destruct (run _ rest).
Qed.

Lemma addr_final (rows : list sample) (d : decoder) (b : bool) (t : Z) :
  state d = READ_ADDR -> pos d = 6 ->
  delivers d rows [(b, t)] = true ->
  snd (run d rows) =
    [EventOut t "ADDRESS";
     DataOut t (to_uint8 (Z.lor (byteBuffer d) (shl_uint (Z.b2z b) 0)))]
  /\ state (fst (run d rows)) = READ_RW
  /\ pos (fst (run d rows)) = 0
  /\ byteBuffer (fst (run d rows)) = 0.
Proof.
  intros S P D.
  destruct (next_edge rows d b t [] D) as (d1 & rest & S1 & P1 & B1 & E1 & R1 & F1).
  rewrite S in S1. rewrite (addr_edge d1 b t E1 S1) in R1, F1.
  cbv zeta in R1, F1. rewrite P1, B1, P in R1, F1. simpl in R1, F1.
  destruct (delivers_nil rest _ F1) as (O & S' & P' & B').
  rewrite R1. simpl. rewrite O. auto.
Qed.

Lemma data_next (rows : list sample) (d : decoder) (b : bool) (t : Z)
      (edges : list (bool * Z)) :
  state d = READ_DATA -> 0 <= pos d < 7 ->
  delivers d rows ((b, t) :: edges) = true ->
  exists (d' : decoder) (rest : list sample),
    state d' = READ_DATA /\ pos d' = pos d + 1
    /\ byteBuffer d' =
       to_uint8 (Z.lor (byteBuffer d) (shl_uint (Z.b2z b) (7 - pos d)))
    /\ run d rows = run d' rest
    /\ delivers d' rest edges = true.
Proof.
  intros S P D.
  destruct (next_edge rows d b t edges D) as (d1 & rest & S1 & P1 & B1 & E1 & R1 & F1).
  rewrite S in S1. rewrite (data_edge d1 b t E1 S1) in R1, F1.
  cbv zeta in R1, F1. rewrite P1, B1, to_uint8_small in R1, F1 by lia.
  destruct (Z.eqb_spec (pos d + 1) 8) as [C | _]; [lia|].
  eexists. exists rest. simpl in R1, F1.
  repeat split; [.. | exact F1]; try reflexivity.
  rewrite R1. now destruct (run _ rest).
Qed.

Lemma data_final (rows : list sample) (d : decoder) (b : bool) (t : Z) :
  state d = READ_DATA -> pos d = 7 ->
  delivers d rows [(b, t)] = true ->
  snd (run d rows) =
    [DataOut t (to_uint8 (Z.lor (byteBuffer d) (shl_uint (Z.b2z b) 0)));
     EventOut t "DATA"]
  /\ state (fst (run d rows)) = READ_ACK
  /\ pos (fst (run d rows)) = 0
  /\ byteBuffer (fst (run d rows)) = 0.
Proof.
  intros S P D.
  destruct (next_edge rows d b t [] D) as (d1 & rest & S1 & P1 & B1 & E1 & R1 & F1).
  rewrite S in S1. rewrite (data_edge d1 b t E1 S1) in R1, F1.
  cbv zeta in R1, F1. rewrite P1, B1, P in R1, F1. simpl in R1, F1.
  destruct (delivers_nil rest _ F1) as (O & S' & P' & B').
  rewrite R1. simpl. rewrite O. auto.
Qed.

(** Consume the next bit sample edge of the goal with [lem], keeping the
    position and buffer of the new decoder as equations. *)
Ltac consume lem S P B D :=
  let d' := fresh "d" in
  let rest := fresh "rest" in
  let S' := fresh "S" in
  let P' := fresh "P" in
  let B' := fresh "B" in
  let R := fresh "R" in
  let D' := fresh "D" in
  destruct (lem _ _ _ _ _ S ltac:(rewrite P; lia) D)
    as (d' & rest & S' & P' & B' & R & D');
  rewrite R; clear R D;
  rewrite P in P', B'; rewrite B in B'; clear S P B;
  rename S' into S; rename P' into P; rename B' into B; rename D' into D.

(** C2.  Rows that deliver to a decoder in READ_ADDR with [pos = 0] and
    [byteBuffer = 0] exactly seven bit sample edges, with the bits b6 ... b0
    in the order received, make it emit, at the time tag of the seventh edge,
    the ADDRESS event and the byte b6*64 + b5*32 + b4*16 + b3*8 + b2*4 + b1*2
    + b0*1, which lies between 0 and 127, and enter READ_RW.  Rows that
    deliver to a decoder in READ_DATA with [pos = 0] and [byteBuffer = 0]
    exactly eight bit sample edges b7 ... b0 make it emit, at the time tag of
    the eighth edge, the byte b7*128 + b6*64 + ... + b0*1 and the DATA event,
    and enter READ_ACK. *)
Theorem C2_bit_order :
  (forall (d : decoder) (rows : list sample)
          (b6 b5 b4 b3 b2 b1 b0 : bool) (t6 t5 t4 t3 t2 t1 t0 : Z),
     state d = READ_ADDR -> pos d = 0 -> byteBuffer d = 0 ->
     delivers d rows
       [(b6, t6); (b5, t5); (b4, t4); (b3, t3); (b2, t2); (b1, t1); (b0, t0)]
     = true ->
     let v := Z.b2z b6 * 64 + Z.b2z b5 * 32 + Z.b2z b4 * 16 + Z.b2z b3 * 8
              + Z.b2z b2 * 4 + Z.b2z b1 * 2 + Z.b2z b0 * 1 in
     snd (run d rows) = [EventOut t0 "ADDRESS"; DataOut t0 v]
     /\ 0 <= v <= 127
     /\ state (fst (run d rows)) = READ_RW
     /\ pos (fst (run d rows)) = 0
     /\ byteBuffer (fst (run d rows)) = 0)
  /\ (forall (d : decoder) (rows : list sample)
             (b7 b6 b5 b4 b3 b2 b1 b0 : bool) (t7 t6 t5 t4 t3 t2 t1 t0 : Z),
        state d = READ_DATA -> pos d = 0 -> byteBuffer d = 0 ->
        delivers d rows
          [(b7, t7); (b6, t6); (b5, t5); (b4, t4); (b3, t3); (b2, t2);
           (b1, t1); (b0, t0)]
        = true ->
        let v := Z.b2z b7 * 128 + Z.b2z b6 * 64 + Z.b2z b5 * 32
                 + Z.b2z b4 * 16 + Z.b2z b3 * 8 + Z.b2z b2 * 4
                 + Z.b2z b1 * 2 + Z.b2z b0 * 1 in
        snd (run d rows) = [DataOut t0 v; EventOut t0 "DATA"]
        /\ 0 <= v <= 255
        /\ state (fst (run d rows)) = READ_ACK
        /\ pos (fst (run d rows)) = 0
        /\ byteBuffer (fst (run d rows)) = 0).
Proof.
  split.
  - intros d rows b6 b5 b4 b3 b2 b1 b0 t6 t5 t4 t3 t2 t1 t0 S P B D.
    do 6 consume addr_next S P B D.
    destruct (addr_final _ _ _ _ S P D) as (O & S' & P' & B').
    rewrite O, B. cbv zeta. repeat split; try assumption;
      destruct b6, b5, b4, b3, b2, b1, b0; vm_compute;
      reflexivity || discriminate.
  - intros d rows b7 b6 b5 b4 b3 b2 b1 b0 t7 t6 t5 t4 t3 t2 t1 t0 S P B D.
    do 7 consume data_next S P B D.
    destruct (data_final _ _ _ _ S P D) as (O & S' & P' & B').
    rewrite O, B. cbv zeta. repeat split; try assumption;
      destruct b7, b6, b5, b4, b3, b2, b1, b0; vm_compute;
      reflexivity || discriminate.
Qed.

Lemma C2_bit_order_witness :
  (let d := {| state := READ_ADDR; scl := 1; sda := 0; pos := 0; byteBuffer := 0 |} in
   let rows := stamp Z.of_nat 2 (flat_map bitLevels [1; 0; 1; 0; 0; 0; 0]) in
   snd (run d rows) = [EventOut 15 "ADDRESS"; DataOut 15 80]
   /\ 0 <= 80 <= 127
   /\ state (fst (run d rows)) = READ_RW
   /\ pos (fst (run d rows)) = 0
   /\ byteBuffer (fst (run d rows)) = 0)
  /\ (let d := {| state := READ_DATA; scl := 1; sda := 0; pos := 0; byteBuffer := 0 |} in
      let rows := stamp Z.of_nat 0 (flat_map bitLevels [1; 0; 0; 1; 0; 1; 1; 0]) in
      snd (run d rows) = [DataOut 15 150; EventOut 15 "DATA"]
      /\ 0 <= 150 <= 255
      /\ state (fst (run d rows)) = READ_ACK
      /\ pos (fst (run d rows)) = 0
      /\ byteBuffer (fst (run d rows)) = 0).
Proof.
  split.
  - exact (proj1 C2_bit_order
             {| state := READ_ADDR; scl := 1; sda := 0; pos := 0; byteBuffer := 0 |}
             (stamp Z.of_nat 2 (flat_map bitLevels [1; 0; 1; 0; 0; 0; 0]))
             true false true false false false false
             3 5 7 9 11 13 15
             eq_refl eq_refl eq_refl eq_refl).
  - exact (proj2 C2_bit_order
             {| state := READ_DATA; scl := 1; sda := 0; pos := 0; byteBuffer := 0 |}
             (stamp Z.of_nat 0 (flat_map bitLevels [1; 0; 0; 1; 0; 1; 1; 0]))
             true false false true false true true false
             1 3 5 7 9 11 13 15
             eq_refl eq_refl eq_refl eq_refl).
Defined.

(** * Further properties of the decoder *)

(** ** Fields that are never read *)

Lemma sameView_step (d1 d2 : decoder) (sclValue sdaValue time : Z) :
  sameView d1 d2 ->
  snd (handleState d1 sclValue sdaValue time)
  = snd (handleState d2 sclValue sdaValue time)
  /\ sameView (fst (handleState d1 sclValue sdaValue time))
              (fst (handleState d2 sclValue sdaValue time)).
Proof.
  destruct d1 as [s1 c1 a1 p1 b1], d2 as [s2 c2 a2 p2 b2].
  unfold sameView. simpl. intros (<- & <- & <- & H).
  destruct s1;
    try (assert (E : p1 = p2 /\ b1 = b2) by (apply H; auto);
         destruct E as [<- <-]);
    clear H; unfold handleState;
    cbn [state scl sda pos byteBuffer conditions_eqb conditions_value
         Z.eqb Pos.eqb andb];
    repeat match goal with
    | |- context [if ?c then _ else _] => destruct c
    end;
    cbn [fst snd setLevels state scl sda pos byteBuffer];
    (split; [reflexivity|]); repeat split;
    match goal with
    | H : _ \/ _ |- _ => destruct H as [E | E]; discriminate E
    end.
Qed.

Lemma sameView_run (samples : list sample) :
  forall d1 d2 : decoder,
    sameView d1 d2 ->
    snd (run d1 samples) = snd (run d2 samples)
    /\ sameView (fst (run d1 samples)) (fst (run d2 samples)).
Proof.
  induction samples as [|s rest IH]; intros d1 d2 V.
  - simpl. auto.
  - rewrite !run_cons. simpl.
    destruct (sameView_step d1 d2 (s_scl s) (s_sda s) (s_time s) V) as [O V'].
    destruct (IH _ _ V') as [O' V''].
    rewrite O, O'. auto.
Qed.

(** X1.  What a session emits, and the state and stored levels it ends
    with, do not depend on what the decoder block held at creation in the
    two fields [newDecoder] leaves unassigned. *)
Theorem unassigned_fields_never_read
        (pos0 byteBuffer0 pos0' byteBuffer0' : Z) (samples : list sample) :
  snd (decode pos0 byteBuffer0 samples) = snd (decode pos0' byteBuffer0' samples)
  /\ sameView (fst (decode pos0 byteBuffer0 samples))
              (fst (decode pos0' byteBuffer0' samples)).
Proof.
  apply sameView_run. unfold sameView, newDecoder. simpl.
  repeat split;
    match goal with
    | H : _ \/ _ |- _ => destruct H as [E | E]; discriminate E
    end.
Qed.

(** X2.  A stop condition and a start condition resynchronise the decoder:
    what is emitted afterwards does not depend on the state, position or
    buffer the decoder had when the condition arrived. *)
Theorem resynchronised_by_stop_and_start
        (d1 d2 : decoder) (time : Z) (rest : list sample) :
  scl d1 = 1 -> scl d2 = 1 -> sda d1 = sda d2 ->
  (sda d1 = 0 ->
   snd (run (fst (handleState d1 1 1 time)) rest)
   = snd (run (fst (handleState d2 1 1 time)) rest))
  /\ (sda d1 = 1 ->
      snd (run (fst (handleState d1 1 0 time)) rest)
      = snd (run (fst (handleState d2 1 0 time)) rest)).
Proof.
  intros C1 C2 A. split; intros A1.
  - rewrite !handleState_stop
      by (unfold stopCondition; rewrite ?C1, ?C2, <- ?A, A1; reflexivity).
    apply sameView_run. unfold sameView. simpl.
    repeat split;
      match goal with
      | H : _ \/ _ |- _ => destruct H as [E | E]; discriminate E
      end.
  - rewrite !handleState_start
      by (unfold startCondition; rewrite ?C1, ?C2, <- ?A, A1; reflexivity).
    reflexivity.
Qed.

Lemma resynchronised_by_stop_and_start_witness :
  let d1 := {| state := READ_ADDR; scl := 1; sda := 0; pos := 3; byteBuffer := 64 |} in
  let d2 := {| state := READ_DATA; scl := 1; sda := 0; pos := 5; byteBuffer := 8 |} in
  let rest := stamp Z.of_nat 1 writeTransaction in
  (sda d1 = 0 ->
   snd (run (fst (handleState d1 1 1 0)) rest)
   = snd (run (fst (handleState d2 1 1 0)) rest))
  /\ (sda d1 = 1 ->
      snd (run (fst (handleState d1 1 0 0)) rest)
      = snd (run (fst (handleState d2 1 0 0)) rest)).
Proof.
  exact (resynchronised_by_stop_and_start
           {| state := READ_ADDR; scl := 1; sda := 0; pos := 3; byteBuffer := 64 |}
           {| state := READ_DATA; scl := 1; sda := 0; pos := 5; byteBuffer := 8 |}
           0 (stamp Z.of_nat 1 writeTransaction) eq_refl eq_refl eq_refl).
Defined.

(** ** Rows that decode nothing *)

Lemma low_step_any (d : decoder) (sdaValue time : Z) :
  snd (handleState d 0 sdaValue time) = []
  /\ state (fst (handleState d 0 sdaValue time)) = state d
  /\ pos (fst (handleState d 0 sdaValue time)) = pos d
  /\ byteBuffer (fst (handleState d 0 sdaValue time)) = byteBuffer d.
Proof.
  unfold handleState.
  destruct ((scl d =? 0) && (sda d =? sdaValue)); [now simpl|].
  destruct ((scl d =? 1) && (0 =? 0)); now simpl.
Qed.

(** X3.  While the clock is low nothing is decoded: rows with the clock
    level 0 (clock going low, data changing under a low clock, or no change)
    emit nothing and keep [state], [pos] and [byteBuffer], whatever the
    decoder and the data levels are. *)
Theorem clock_low_rows_ignored (d : decoder) (rows : list sample) :
  Forall (fun s => s_scl s = 0) rows ->
  snd (run d rows) = []
  /\ state (fst (run d rows)) = state d
  /\ pos (fst (run d rows)) = pos d
  /\ byteBuffer (fst (run d rows)) = byteBuffer d.
Proof.
  intros F. revert d. induction F as [|s rest C _ IH]; intros d.
  - simpl. auto.
  - rewrite run_cons, C.
    destruct (low_step_any d (s_sda s) (s_time s)) as (O & S & P & B).
    destruct (IH (fst (handleState d 0 (s_sda s) (s_time s))))
      as (O' & S' & P' & B').
    simpl. rewrite O, O'. repeat split; congruence.
Qed.

Lemma clock_low_rows_ignored_witness :
  let d := {| state := READ_DATA; scl := 1; sda := 1; pos := 3; byteBuffer := 96 |} in
  let rows := [mkSample 0 1 1; mkSample 0 0 2; mkSample 0 1 3] in
  snd (run d rows) = []
  /\ state (fst (run d rows)) = state d
  /\ pos (fst (run d rows)) = pos d
  /\ byteBuffer (fst (run d rows)) = byteBuffer d.
Proof.
  apply (clock_low_rows_ignored
           {| state := READ_DATA; scl := 1; sda := 1; pos := 3; byteBuffer := 96 |}
           [mkSample 0 1 1; mkSample 0 0 2; mkSample 0 1 3]).
  repeat constructor.
Defined.

(** X4.  A row whose clock level is neither 0 nor 1 is never decoded: it is
    either skipped as a no-change, or it makes the two diagnostic calls; in
    both cases no event and no byte is emitted and [state], [pos] and
    [byteBuffer] are kept, whatever the state is. *)
Theorem clock_level_not_a_bit (d : decoder) (sclValue sdaValue time : Z) :
  sclValue <> 0 -> sclValue <> 1 ->
  handleState d sclValue sdaValue time = (d, [])
  \/ handleState d sclValue sdaValue time =
     (setLevels d sclValue sdaValue,
      [IoPrint msgUnhandled;
       IoPrintf fmtUnhandled
         [conditions_value (state d); scl d; sda d; scl d; sda d]]).
Proof.
  intros N0 N1. apply Z.eqb_neq in N0, N1. unfold handleState.
  rewrite N0, N1, !andb_false_r.
  destruct ((scl d =? sclValue) && (sda d =? sdaValue)); auto.
Qed.

Lemma clock_level_not_a_bit_witness :
  let d := {| state := READ_ADDR; scl := 0; sda := 1; pos := 2; byteBuffer := 64 |} in
  handleState d 3 1 7 = (d, [])
  \/ handleState d 3 1 7 =
     (setLevels d 3 1,
      [IoPrint msgUnhandled; IoPrintf fmtUnhandled [1; 0; 1; 0; 1]]).
Proof.
  apply (clock_level_not_a_bit
           {| state := READ_ADDR; scl := 0; sda := 1; pos := 2; byteBuffer := 64 |}
           3 1 7); lia.
Defined.

(** ** Stored levels *)

Lemma reachable_levels (pos0 byteBuffer0 : Z) (d : decoder) :
  reachable pos0 byteBuffer0 d ->
  0 <= scl d < 256 /\ 0 <= sda d < 256.
Proof.
  induction 1 as [|d c a t R IH].
  - simpl. lia.
  - revert IH. branches; simpl; intros IH;
      auto using to_uint8_range.
Qed.

Lemma reachable_run (pos0 byteBuffer0 : Z) (rows : list sample) :
  forall d : decoder,
    reachable pos0 byteBuffer0 d ->
    reachable pos0 byteBuffer0 (fst (run d rows)).
Proof.
  induction rows as [|s rest IH]; intros d R.
  - exact R.
  - rewrite run_cons. simpl. apply IH. now apply reach_step.
Qed.

Lemma reachable_decode (pos0 byteBuffer0 : Z) (rows : list sample) :
  reachable pos0 byteBuffer0 (fst (decode pos0 byteBuffer0 rows)).
Proof. apply reachable_run. apply reach_new. Qed.

Lemma levels_after_step (pos0 byteBuffer0 : Z) (d : decoder)
      (sclValue sdaValue time : Z) :
  reachable pos0 byteBuffer0 d ->
  scl (fst (handleState d sclValue sdaValue time)) = to_uint8 sclValue
  /\ sda (fst (handleState d sclValue sdaValue time)) = to_uint8 sdaValue.
Proof.
  intros R. apply reachable_levels in R. destruct R as [Rc Ra].
  branches; simpl; auto.
  bool_hyps. subst. now rewrite !to_uint8_small.
Qed.

(** X5.  After every row of a session the stored levels are the levels of
    that row reduced modulo 256, whichever branch the row took (the early
    return of the no-change branch included). *)
Theorem stored_levels_are_last_row
        (pos0 byteBuffer0 : Z) (rows : list sample) (s : sample) :
  let d := fst (decode pos0 byteBuffer0 (rows ++ [s])) in
  scl d = to_uint8 (s_scl s) /\ sda d = to_uint8 (s_sda s).
Proof.
  unfold decode. rewrite run_app. cbn [fst]. rewrite run_cons. cbn [fst run].
  apply (levels_after_step pos0 byteBuffer0). apply reachable_decode.
Qed.

(** X6.  The stored levels are 8 bits wide, the arguments of [handleState]
    are not: in a session a row whose clock level is 256 or more never equals
    the stored levels, so it makes the two diagnostic calls every time it is
    fed, also when it repeats the row before it. *)
Theorem oversized_clock_level_always_logged
        (pos0 byteBuffer0 : Z) (d : decoder) (sclValue sdaValue time : Z) :
  reachable pos0 byteBuffer0 d ->
  256 <= sclValue ->
  snd (handleState d sclValue sdaValue time) =
    [IoPrint msgUnhandled;
     IoPrintf fmtUnhandled
       [conditions_value (state d); scl d; sda d; scl d; sda d]]
  /\ snd (handleState (fst (handleState d sclValue sdaValue time))
                      sclValue sdaValue time) =
     [IoPrint msgUnhandled;
      IoPrintf fmtUnhandled
        [conditions_value (state d); to_uint8 sclValue; to_uint8 sdaValue;
         to_uint8 sclValue; to_uint8 sdaValue]].
Proof.
  intros R L.
  assert (K : forall d', reachable pos0 byteBuffer0 d' ->
                handleState d' sclValue sdaValue time =
                (setLevels d' sclValue sdaValue,
                 [IoPrint msgUnhandled;
                  IoPrintf fmtUnhandled
                    [conditions_value (state d'); scl d'; sda d'; scl d'; sda d']])).
  { intros d' R'. apply reachable_levels in R'. unfold handleState.
    assert (N : (scl d' =? sclValue) = false) by (apply Z.eqb_neq; lia).
    assert (N0 : (sclValue =? 0) = false) by (apply Z.eqb_neq; lia).
    assert (N1 : (sclValue =? 1) = false) by (apply Z.eqb_neq; lia).
    rewrite N, N0, N1, !andb_false_r. reflexivity. }
  pose proof (reach_step _ _ d sclValue sdaValue time R) as R1.
  rewrite (K d R) in *. cbn [fst snd] in *. split; [reflexivity|].
  rewrite (K _ R1). reflexivity.
Qed.

Lemma oversized_clock_level_always_logged_witness :
  snd (handleState (newDecoder 0 0) 256 1 5) =
    [IoPrint msgUnhandled; IoPrintf fmtUnhandled [0; 1; 1; 1; 1]]
  /\ snd (handleState (fst (handleState (newDecoder 0 0) 256 1 5)) 256 1 5) =
     [IoPrint msgUnhandled; IoPrintf fmtUnhandled [0; 0; 1; 0; 1]].
Proof.
  apply (oversized_clock_level_always_logged 0 0 (newDecoder 0 0) 256 1 5).
  - apply reach_new.
  - lia.
Defined.

(** ** Direction and ack bits, diagnostics *)

(** X7.  On a bit sample edge in READ_RW the decoder emits WRITE when the
    data level is 0 and READ for every other level, enters READ_ACK and
    keeps [pos] and [byteBuffer]; in READ_ACK it emits ACK when the data
    level is 0 and NACK for every other level, and enters READ_DATA with
    [pos] and [byteBuffer] cleared. *)
Theorem direction_and_ack_bits (d : decoder) (sdaValue time : Z) :
  bitSampleEdge d 1 sdaValue = true ->
  (state d = READ_RW ->
   handleState d 1 sdaValue time =
   ({| state := READ_ACK; scl := 1; sda := to_uint8 sdaValue;
       pos := pos d; byteBuffer := byteBuffer d |},
    [EventOut time (if sdaValue =? 0 then "WRITE"%string else "READ"%string)]))
  /\ (state d = READ_ACK ->
      handleState d 1 sdaValue time =
      ({| state := READ_DATA; scl := 1; sda := to_uint8 sdaValue;
          pos := 0; byteBuffer := 0 |},
       [EventOut time (if sdaValue =? 0 then "ACK"%string else "NACK"%string)])).
Proof.
  intros E. destruct (edge_tests _ _ _ E) as (T1 & T2 & T3 & T4 & T5).
  split; intros S; unfold handleState; rewrite T1, T2, T3, T4, T5, S;
    reflexivity.
Qed.

Lemma direction_and_ack_bits_witness :
  let d := {| state := READ_RW; scl := 0; sda := 0; pos := 0; byteBuffer := 0 |} in
  (state d = READ_RW ->
   handleState d 1 2 9 =
   ({| state := READ_ACK; scl := 1; sda := to_uint8 2;
       pos := pos d; byteBuffer := byteBuffer d |},
    [EventOut 9 "READ"%string]))
  /\ (state d = READ_ACK ->
      handleState d 1 2 9 =
      ({| state := READ_DATA; scl := 1; sda := to_uint8 2;
          pos := 0; byteBuffer := 0 |},
       [EventOut 9 "NACK"%string])).
Proof.
  exact (direction_and_ack_bits
           {| state := READ_RW; scl := 0; sda := 0; pos := 0; byteBuffer := 0 |}
           2 9 eq_refl).
Defined.

(** X8.  A session never holds the state INVALID, and with the clock level
    1 the two diagnostic calls are made exactly on the bit sample edges that
    arrive in IDLE. *)
Theorem diagnostic_exactly_when_idle
        (pos0 byteBuffer0 : Z) (d : decoder) (sdaValue time : Z) :
  reachable pos0 byteBuffer0 d ->
  state d <> INVALID
  /\ (ioChannel (snd (handleState d 1 sdaValue time)) <> []
      <-> state d = IDLE /\ bitSampleEdge d 1 sdaValue = true).
Proof.
  intros R. apply reachable_sessionInv in R. unfold sessionInv in R.
  unfold handleState, bitSampleEdge, startCondition, stopCondition.
  rewrite !andb_false_r.
  destruct (state d) eqn:S; try contradiction;
    (split; [discriminate|]);
    cbn [conditions_eqb conditions_value Z.eqb Pos.eqb andb negb];
    destruct ((scl d =? 1) && (sda d =? sdaValue));
    destruct ((scl d =? 1) && (sda d =? 1) && true && (sdaValue =? 0));
    destruct ((scl d =? 1) && (sda d =? 0) && true && (sdaValue =? 1));
    try destruct (to_uint8 (pos d + 1) =? 7);
    try destruct (to_uint8 (pos d + 1) =? 8);
    cbn [snd ioChannel filter andb negb];
    (split;
     [ intros H; try (exfalso; apply H; reflexivity); split; reflexivity
     | intros [H1 H2]; try discriminate H1; try discriminate H2;
       discriminate ]).
Qed.

Lemma diagnostic_exactly_when_idle_witness :
  let d := fst (handleState (newDecoder 0 0) 0 1 1) in
  state d <> INVALID
  /\ (ioChannel (snd (handleState d 1 1 2)) <> []
      <-> state d = IDLE /\ bitSampleEdge d 1 1 = true).
Proof.
  apply (diagnostic_exactly_when_idle 0 0
           (fst (handleState (newDecoder 0 0) 0 1 1)) 1 2).
  apply reach_step. apply reach_new.
Defined.

Lemma shift_count_in_range_witness :
  let d := fst (handleState (newDecoder 9 9) 1 0 1) in
  (state d = READ_ADDR -> 0 <= 6 - pos d <= 6)
  /\ (state d = READ_DATA -> 0 <= 7 - pos d <= 7).
Proof.
  apply (shift_count_in_range 9 9 (fst (handleState (newDecoder 9 9) 1 0 1))).
  apply reach_step. apply reach_new.
Defined.

(** ** The event stream *)

Lemma eventLabels_app (a b : list output) :
  eventLabels (a ++ b) = eventLabels a ++ eventLabels b.
Proof. unfold eventLabels, eventChannel. now rewrite flat_map_app, map_app. Qed.

Lemma last_cons {A : Type} (x d : A) (l : list A) :
  last (x :: l) d = last l x.
Proof.
  revert x d. induction l as [|y l IH]; intros x d.
  - reflexivity.
  - change (last (x :: y :: l) d) with (last (y :: l) d). now rewrite !IH.
Qed.

(** One call: either no event is emitted and the state is kept, or exactly
    one event is emitted, with the time tag of the row and a label that the
    current state can emit, and the new state is the one of the label. *)
Lemma step_event (d : decoder) (sclValue sdaValue time : Z) :
  (eventChannel (snd (handleState d sclValue sdaValue time)) = []
   /\ state (fst (handleState d sclValue sdaValue time)) = state d)
  \/ (exists l,
         eventChannel (snd (handleState d sclValue sdaValue time)) = [(time, l)]
         /\ emittedIn (state d) l = true
         /\ state (fst (handleState d sclValue sdaValue time)) = stateAfter l).
Proof.
  branches; simpl; bool_hyps;
    first
      [ left; split; [reflexivity | congruence]
      | right; eexists; split; [reflexivity|]; split; [|reflexivity];
        destruct (state d) eqn:S0; try congruence; reflexivity ].
Qed.

Lemma run_events (rows : list sample) :
  forall d : decoder,
    accepted (state d) (eventLabels (snd (run d rows))) = true
    /\ state (fst (run d rows))
       = last (map stateAfter (eventLabels (snd (run d rows)))) (state d).
Proof.
  induction rows as [|s rest IH]; intros d.
  - simpl. auto.
  - rewrite run_cons. cbn [fst snd]. rewrite eventLabels_app.
    destruct (IH (fst (handleState d (s_scl s) (s_sda s) (s_time s))))
      as [A L].
    destruct (step_event d (s_scl s) (s_sda s) (s_time s))
      as [[E S] | (l & E & M & S)];
      unfold eventLabels at 1 3; rewrite E; cbn [map snd app];
      rewrite S in A, L.
    + auto.
    + cbn [accepted]. rewrite last_cons, M, A. auto.
Qed.

(** X9.  The events of a session are a word of the protocol automaton
    started in IDLE: every event is one the state reached so far can emit
    (START only in IDLE, START(odd) only outside IDLE, ADDRESS only in
    READ_ADDR, WRITE and READ only in READ_RW, ACK and NACK only in READ_ACK,
    DATA only in READ_DATA, STOP anywhere), and the state of the decoder is
    always the one assigned with the last event emitted, IDLE when there is
    none. *)
Theorem events_follow_automaton
        (pos0 byteBuffer0 : Z) (rows : list sample) :
  let labels := eventLabels (snd (decode pos0 byteBuffer0 rows)) in
  accepted IDLE labels = true
  /\ state (fst (decode pos0 byteBuffer0 rows))
     = last (map stateAfter labels) IDLE.
Proof. exact (run_events rows (newDecoder pos0 byteBuffer0)). Qed.

Lemma accepted_first_two (s : conditions) (l1 l2 : string)
      (pre post : list string) :
  accepted s (pre ++ l1 :: l2 :: post) = true ->
  emittedIn (stateAfter l1) l2 = true.
Proof.
  revert s. induction pre as [|x pre IH]; intros s A.
  - simpl in A. apply andb_true_iff in A. destruct A as [_ A].
    apply andb_true_iff in A. now destruct A.
  - simpl in A. apply andb_true_iff in A. destruct A as [_ A].
    now apply (IH _ A).
Qed.

(** X10.  In the event stream of a session, the first event is START or
    STOP, and an event can only follow an event that leads to a state
    emitting it: ADDRESS comes right after START or START(odd), WRITE and
    READ right after ADDRESS, ACK and NACK right after WRITE, READ or DATA,
    DATA right after ACK or NACK, START right after STOP, START(odd) right
    after anything but STOP. *)
Theorem adjacent_events
        (pos0 byteBuffer0 : Z) (rows : list sample)
        (pre post : list string) (l1 l2 : string) :
  eventLabels (snd (decode pos0 byteBuffer0 rows)) = pre ++ l1 :: l2 :: post ->
  emittedIn (stateAfter l1) l2 = true
  /\ emittedIn IDLE (hd l1 pre) = true.
Proof.
  intros E.
  destruct (run_events rows (newDecoder pos0 byteBuffer0)) as [A _].
  unfold decode in E. rewrite E in A. split.
  - exact (accepted_first_two _ _ _ _ _ A).
  - destruct pre as [|x pre]; simpl in A |- *;
      apply andb_true_iff in A; now destruct A.
Qed.

Lemma adjacent_events_witness :
  emittedIn (stateAfter "DATA") "NACK" = true
  /\ emittedIn IDLE
       (hd "DATA"%string ["START"; "ADDRESS"; "WRITE"; "ACK"]%string) = true.
Proof.
  apply (adjacent_events 0 0 (stamp Z.of_nat 0 writeTransaction)
           ["START"; "ADDRESS"; "WRITE"; "ACK"]%string ["STOP"%string]
           "DATA"%string "NACK"%string).
  vm_compute. reflexivity.
Defined.

(** ** Counts and time tags *)

(** One call emits at most one event and at most one byte, both with the
    time tag of the row, and a byte exactly with an ADDRESS or DATA event. *)
Lemma step_channels (d : decoder) (sclValue sdaValue time : Z) :
  let out := snd (handleState d sclValue sdaValue time) in
  (map fst (eventChannel out) = [] \/ map fst (eventChannel out) = [time])
  /\ (map fst (dataChannel out) = [] \/ map fst (dataChannel out) = [time])
  /\ List.length (dataChannel out) = List.length (filter carriesByte (eventLabels out)).
Proof.
  branches; simpl; auto.
Qed.

Lemma eventChannel_app (a b : list output) :
  eventChannel (a ++ b) = eventChannel a ++ eventChannel b.
Proof. apply flat_map_app. Qed.

Lemma dataChannel_app (a b : list output) :
  dataChannel (a ++ b) = dataChannel a ++ dataChannel b.
Proof. apply flat_map_app. Qed.

(** X11.  A run emits at most one event per row, and exactly one byte for
    each ADDRESS and each DATA event: the data channel never holds more
    records than the event channel, and the event channel never more than
    there are rows, the capacity [execute] gives both data sets. *)
Theorem outputs_bounded_by_rows (d : decoder) (rows : list sample) :
  let tr := snd (run d rows) in
  List.length (dataChannel tr) = List.length (filter carriesByte (eventLabels tr))
  /\ (List.length (dataChannel tr) <= List.length (eventChannel tr))%nat
  /\ (List.length (eventChannel tr) <= List.length rows)%nat.
Proof.
  cbv zeta.
  assert (K : List.length (dataChannel (snd (run d rows)))
              = List.length (filter carriesByte (eventLabels (snd (run d rows))))
              /\ (List.length (eventChannel (snd (run d rows))) <= List.length rows)%nat).
  { revert d. induction rows as [|s rest IH]; intros d.
    - simpl. auto.
    - rewrite run_cons. cbn [snd].
      rewrite dataChannel_app, eventLabels_app, eventChannel_app,
        filter_app, !length_app.
      destruct (IH (fst (handleState d (s_scl s) (s_sda s) (s_time s))))
        as [D E].
      destruct (step_channels d (s_scl s) (s_sda s) (s_time s))
        as (T & _ & C).
      cbv zeta in T, C. rewrite C, D. split; [reflexivity|].
      assert (L : (List.length (eventChannel
                             (snd (handleState d (s_scl s) (s_sda s) (s_time s))))
                   <= 1)%nat).
      { rewrite <- (length_map fst). destruct T as [-> | ->]; simpl; lia. }
      cbn [List.length]. lia. }
  destruct K as [D E]. repeat split; try assumption.
  rewrite D. unfold eventLabels. rewrite <- (length_map snd (eventChannel _)).
  apply filter_length_le.
Qed.

Lemma subseq_Forall {A : Type} (P : A -> Prop) (l1 l2 : list A) :
  subseq l1 l2 -> Forall P l2 -> Forall P l1.
Proof.
  induction 1 as [|x l1 l2 _ IH|x l1 l2 _ IH]; intros F.
  - constructor.
  - inversion F; subst. auto.
  - inversion F; subst. constructor; auto.
Qed.

Lemma subseq_StronglySorted {A : Type} (R : A -> A -> Prop) (l1 l2 : list A) :
  subseq l1 l2 -> StronglySorted R l2 -> StronglySorted R l1.
Proof.
  induction 1 as [|x l1 l2 S IH|x l1 l2 S IH]; intros F.
  - constructor.
  - inversion F; subst. auto.
  - inversion F; subst. constructor; auto.
    now apply (subseq_Forall _ _ _ S).
Qed.

Lemma run_time_tags (rows : list sample) :
  forall d : decoder,
    subseq (map fst (eventChannel (snd (run d rows)))) (map s_time rows)
    /\ subseq (map fst (dataChannel (snd (run d rows)))) (map s_time rows).
Proof.
  induction rows as [|s rest IH]; intros d.
  - simpl. split; constructor.
  - rewrite run_cons. cbn [snd].
    rewrite eventChannel_app, dataChannel_app, !map_app.
    destruct (IH (fst (handleState d (s_scl s) (s_sda s) (s_time s))))
      as [E D].
    destruct (step_channels d (s_scl s) (s_sda s) (s_time s))
      as (TE & TD & _).
    cbv zeta in TE, TD. cbn [map].
    split.
    + destruct TE as [-> | ->]; simpl; now constructor.
    + destruct TD as [-> | ->]; simpl; now constructor.
Qed.

(** X12.  The time tags of the event channel, and those of the data
    channel, are the time tags of the rows with some left out: every record
    carries the time tag of the row that produced it, in the order of the
    rows, and no row produces two records of the same channel. *)
Theorem time_tags_are_row_time_tags (d : decoder) (rows : list sample) :
  subseq (map fst (eventChannel (snd (run d rows)))) (map s_time rows)
  /\ subseq (map fst (dataChannel (snd (run d rows)))) (map s_time rows).
Proof. apply run_time_tags. Qed.

(** X13.  When the time tags of the rows increase strictly, so do the time
    tags of the event channel and those of the data channel; the same holds
    for any other order on the time tags. *)
Theorem time_goes_forward (R : Z -> Z -> Prop) (d : decoder)
        (rows : list sample) :
  StronglySorted R (map s_time rows) ->
  StronglySorted R (map fst (eventChannel (snd (run d rows))))
  /\ StronglySorted R (map fst (dataChannel (snd (run d rows)))).
Proof.
  intros S. destruct (run_time_tags rows d) as [E D].
  split; eapply subseq_StronglySorted; eassumption.
Qed.

Lemma time_goes_forward_witness :
  let rows := stamp Z.of_nat 0 [(1, 0); (0, 0); (1, 1)] in
  StronglySorted Z.lt
    (map fst (eventChannel (snd (run (newDecoder 0 0) rows))))
  /\ StronglySorted Z.lt
       (map fst (dataChannel (snd (run (newDecoder 0 0) rows)))).
Proof.
  apply (time_goes_forward Z.lt (newDecoder 0 0)
           (stamp Z.of_nat 0 [(1, 0); (0, 0); (1, 1)])).
  simpl. repeat constructor.
Defined.

(** ** Round trip of a transaction *)

Lemma stamp_app (tm : nat -> Z) (l1 l2 : list (Z * Z)) :
  forall n : nat,
    stamp tm n (l1 ++ l2)
    = stamp tm n l1 ++ stamp tm (List.length l1 + n) l2.
Proof.
  induction l1 as [|[c a] l1 IH]; intros n.
  - reflexivity.
  - simpl. rewrite IH. now rewrite Nat.add_succ_r.
Qed.

Lemma bits7_value (a : Z) :
  0 <= a < 128 ->
  Z.b2z (Z.testbit a 6) * 64 + Z.b2z (Z.testbit a 5) * 32
  + Z.b2z (Z.testbit a 4) * 16 + Z.b2z (Z.testbit a 3) * 8
  + Z.b2z (Z.testbit a 2) * 4 + Z.b2z (Z.testbit a 1) * 2
  + Z.b2z (Z.testbit a 0) * 1 = a.
Proof.
  intros R. destruct a as [|p|p]; [reflexivity | | lia].
  do 7 (destruct p as [p|p|]; try lia; try reflexivity).
Qed.

Lemma bits8_value (a : Z) :
  0 <= a < 256 ->
  Z.b2z (Z.testbit a 7) * 128 + Z.b2z (Z.testbit a 6) * 64
  + Z.b2z (Z.testbit a 5) * 32 + Z.b2z (Z.testbit a 4) * 16
  + Z.b2z (Z.testbit a 3) * 8 + Z.b2z (Z.testbit a 2) * 4
  + Z.b2z (Z.testbit a 1) * 2 + Z.b2z (Z.testbit a 0) * 1 = a.
Proof.
  intros R. destruct a as [|p|p]; [reflexivity | | lia].
  do 8 (destruct p as [p|p|]; try lia; try reflexivity).
Qed.

(** The address field and a data byte on the wave form of [bitLevels], bit
    by bit. *)
Lemma address_bits (tm : nat -> Z) (n : nat) (sd : Z)
      (b6 b5 b4 b3 b2 b1 b0 : bool) :
  run {| state := READ_ADDR; scl := 1; sda := sd; pos := 0; byteBuffer := 0 |}
      (stamp tm n
         (flat_map bitLevels
            [Z.b2z b6; Z.b2z b5; Z.b2z b4; Z.b2z b3; Z.b2z b2; Z.b2z b1;
             Z.b2z b0]))
  = ({| state := READ_RW; scl := 1; sda := Z.b2z b0; pos := 0; byteBuffer := 0 |},
     [EventOut (tm (13 + n)%nat) "ADDRESS";
      DataOut (tm (13 + n)%nat)
        (Z.b2z b6 * 64 + Z.b2z b5 * 32 + Z.b2z b4 * 16 + Z.b2z b3 * 8
         + Z.b2z b2 * 4 + Z.b2z b1 * 2 + Z.b2z b0 * 1)]).
Proof.
  destruct b6, b5, b4, b3, b2, b1, b0; reflexivity.
Qed.

Lemma data_bits (tm : nat -> Z) (n : nat) (sd : Z)
      (b7 b6 b5 b4 b3 b2 b1 b0 : bool) :
  run {| state := READ_DATA; scl := 1; sda := sd; pos := 0; byteBuffer := 0 |}
      (stamp tm n
         (flat_map bitLevels
            [Z.b2z b7; Z.b2z b6; Z.b2z b5; Z.b2z b4; Z.b2z b3; Z.b2z b2;
             Z.b2z b1; Z.b2z b0]))
  = ({| state := READ_ACK; scl := 1; sda := Z.b2z b0; pos := 0; byteBuffer := 0 |},
     [DataOut (tm (15 + n)%nat)
        (Z.b2z b7 * 128 + Z.b2z b6 * 64 + Z.b2z b5 * 32 + Z.b2z b4 * 16
         + Z.b2z b3 * 8 + Z.b2z b2 * 4 + Z.b2z b1 * 2 + Z.b2z b0 * 1);
      EventOut (tm (15 + n)%nat) "DATA"]).
Proof.
  destruct b7, b6, b5, b4, b3, b2, b1, b0; reflexivity.
Qed.

Lemma run_stamp_app (d : decoder) (tm : nat -> Z) (n : nat)
      (l1 l2 : list (Z * Z)) :
  run d (stamp tm n (l1 ++ l2))
  = (fst (run (fst (run d (stamp tm n l1))) (stamp tm (List.length l1 + n) l2)),
     snd (run d (stamp tm n l1))
     ++ snd (run (fst (run d (stamp tm n l1))) (stamp tm (List.length l1 + n) l2))).
Proof. rewrite stamp_app. apply run_app. Qed.

Lemma run_stamp_app_eq (d : decoder) (tm : nat -> Z) (n : nat)
      (l1 l2 : list (Z * Z)) (d1 : decoder) (o1 : list output) :
  run d (stamp tm n l1) = (d1, o1) ->
  run d (stamp tm n (l1 ++ l2))
  = (fst (run d1 (stamp tm (List.length l1 + n) l2)),
     o1 ++ snd (run d1 (stamp tm (List.length l1 + n) l2))).
Proof. intros E. now rewrite run_stamp_app, E. Qed.

Lemma pair_fst {A B : Type} (a : A) (b : B) : fst (a, b) = a.
Proof. reflexivity. Qed.

Lemma pair_snd {A B : Type} (a : A) (b : B) : snd (a, b) = b.
Proof. reflexivity. Qed.

Lemma address_phase (tm : nat -> Z) (n : nat) (sd addr : Z) :
  0 <= addr < 128 ->
  run {| state := READ_ADDR; scl := 1; sda := sd; pos := 0; byteBuffer := 0 |}
      (stamp tm n (flat_map bitLevels (msbLevels 7 addr)))
  = ({| state := READ_RW; scl := 1; sda := Z.b2z (Z.testbit addr 0);
        pos := 0; byteBuffer := 0 |},
     [EventOut (tm (13 + n)%nat) "ADDRESS"; DataOut (tm (13 + n)%nat) addr]).
Proof.
  intros R.
  change (msbLevels 7 addr)
    with [Z.b2z (Z.testbit addr 6); Z.b2z (Z.testbit addr 5);
          Z.b2z (Z.testbit addr 4); Z.b2z (Z.testbit addr 3);
          Z.b2z (Z.testbit addr 2); Z.b2z (Z.testbit addr 1);
          Z.b2z (Z.testbit addr 0)].
  rewrite address_bits. now rewrite (bits7_value addr R).
Qed.

Lemma byte_phase (tm : nat -> Z) (n : nat) (sd v : Z) :
  0 <= v < 256 ->
  run {| state := READ_DATA; scl := 1; sda := sd; pos := 0; byteBuffer := 0 |}
      (stamp tm n (flat_map bitLevels (msbLevels 8 v)))
  = ({| state := READ_ACK; scl := 1; sda := Z.b2z (Z.testbit v 0);
        pos := 0; byteBuffer := 0 |},
     [DataOut (tm (15 + n)%nat) v; EventOut (tm (15 + n)%nat) "DATA"]).
Proof.
  intros R.
  change (msbLevels 8 v)
    with [Z.b2z (Z.testbit v 7); Z.b2z (Z.testbit v 6);
          Z.b2z (Z.testbit v 5); Z.b2z (Z.testbit v 4);
          Z.b2z (Z.testbit v 3); Z.b2z (Z.testbit v 2);
          Z.b2z (Z.testbit v 1); Z.b2z (Z.testbit v 0)].
  rewrite data_bits. now rewrite (bits8_value v R).
Qed.

Lemma direction_phase (tm : nat -> Z) (n : nat) (sd : Z) (rw : bool) :
  run {| state := READ_RW; scl := 1; sda := sd; pos := 0; byteBuffer := 0 |}
      (stamp tm n (bitLevels (Z.b2z rw)))
  = ({| state := READ_ACK; scl := 1; sda := Z.b2z rw; pos := 0; byteBuffer := 0 |},
     [EventOut (tm (1 + n)%nat) (rwLabel rw)]).
Proof. destruct rw; reflexivity. Qed.

Lemma ack_phase (tm : nat -> Z) (n : nat) (sd : Z) (ack : bool) :
  run {| state := READ_ACK; scl := 1; sda := sd; pos := 0; byteBuffer := 0 |}
      (stamp tm n (bitLevels (Z.b2z ack)))
  = ({| state := READ_DATA; scl := 1; sda := Z.b2z ack; pos := 0; byteBuffer := 0 |},
     [EventOut (tm (1 + n)%nat) (ackLabel ack)]).
Proof. destruct ack; reflexivity. Qed.

Lemma stop_phase (tm : nat -> Z) (n : nat) (sd : Z) :
  run {| state := READ_DATA; scl := 1; sda := sd; pos := 0; byteBuffer := 0 |}
      (stamp tm n [(0, 0); (1, 0); (1, 1)])
  = ({| state := IDLE; scl := 1; sda := 1; pos := 1; byteBuffer := 0 |},
     [EventOut (tm (2 + n)%nat) "STOP"]).
Proof. reflexivity. Qed.

Lemma start_phase (tm : nat -> Z) (n : nat) (p b : Z) :
  run {| state := IDLE; scl := 1; sda := 1; pos := p; byteBuffer := b |}
      (stamp tm n [(1, 0)])
  = ({| state := READ_ADDR; scl := 1; sda := 0; pos := 0; byteBuffer := 0 |},
     [EventOut (tm n) "START"]).
Proof. reflexivity. Qed.

Lemma ioChannel_app (a b : list output) :
  ioChannel (a ++ b) = ioChannel a ++ ioChannel b.
Proof. apply filter_app. Qed.

(** The payload and the STOP, from READ_DATA at the start of a byte. *)
Lemma payload_phase (tm : nat -> Z) (payload : list (Z * bool)) :
  Forall (fun p => 0 <= fst p < 256) payload ->
  forall (n : nat) (sd : Z),
    let r :=
      run {| state := READ_DATA; scl := 1; sda := sd; pos := 0; byteBuffer := 0 |}
          (stamp tm n
             (flat_map (fun p => flat_map bitLevels (msbLevels 8 (fst p))
                                 ++ bitLevels (Z.b2z (snd p))) payload
              ++ [(0, 0); (1, 0); (1, 1)])) in
    eventLabels (snd r)
    = flat_map (fun p => ["DATA"%string; ackLabel (snd p)]) payload
      ++ ["STOP"%string]
    /\ map snd (dataChannel (snd r)) = map fst payload
    /\ ioChannel (snd r) = []
    /\ fst r = {| state := IDLE; scl := 1; sda := 1; pos := 1; byteBuffer := 0 |}.
Proof.
  induction 1 as [|[v a] payload Rv _ IH]; intros n sd; cbv zeta.
  - cbn [flat_map app]. rewrite stop_phase. repeat split.
  - cbn [flat_map fst snd]. rewrite <- !app_assoc.
    rewrite run_stamp_app, (byte_phase tm n sd v Rv). cbn [fst snd].
    rewrite run_stamp_app, ack_phase. cbn [fst snd].
    match goal with
    | |- context [run ?d (stamp tm ?m ?l)] =>
        destruct (IH m (Z.b2z a)) as (E & D & I & F)
    end.
    cbv zeta in E, D, I, F.
    rewrite !eventLabels_app, !dataChannel_app, !ioChannel_app, !map_app.
    rewrite E, D, I, F. repeat split.
Qed.

(** A whole transaction, from IDLE with both stored levels high. *)
Lemma transaction_run
        (d : decoder) (tm : nat -> Z) (n : nat)
        (addr : Z) (rw ack : bool) (payload : list (Z * bool)) :
  state d = IDLE -> scl d = 1 -> sda d = 1 ->
  0 <= addr < 128 ->
  Forall (fun p => 0 <= fst p < 256) payload ->
  let r := run d (stamp tm n (transactionLevels addr rw ack payload)) in
  eventLabels (snd r)
  = ["START"%string; "ADDRESS"%string; rwLabel rw; ackLabel ack]
    ++ flat_map (fun p => ["DATA"%string; ackLabel (snd p)]) payload
    ++ ["STOP"%string]
  /\ map snd (dataChannel (snd r)) = addr :: map fst payload
  /\ ioChannel (snd r) = []
  /\ state (fst r) = IDLE /\ scl (fst r) = 1 /\ sda (fst r) = 1.
Proof.
  destruct d as [st c a p b]. cbn [state scl sda].
  intros -> -> -> Ra Rp. cbv zeta. unfold transactionLevels.
  rewrite (run_stamp_app_eq _ _ _ _ _ _ _ (start_phase tm n p b)).
  rewrite (run_stamp_app_eq _ _ _ _ _ _ _ (address_phase tm _ 0 addr Ra)).
  rewrite (run_stamp_app_eq _ _ _ _ _ _ _ (direction_phase tm _ _ rw)).
  rewrite (run_stamp_app_eq _ _ _ _ _ _ _ (ack_phase tm _ _ ack)).
  match goal with
  | |- context [run _ (stamp tm ?m _)] =>
      destruct (payload_phase tm payload Rp m (Z.b2z ack)) as (E & D & I & F)
  end.
  cbv zeta in E, D, I, F.
  rewrite !pair_fst, !pair_snd.
  rewrite !eventLabels_app, !dataChannel_app, !ioChannel_app, !map_app.
  rewrite E, D, I, F. repeat split.
Qed.

(** X14.  Round trip.  The wave form of a transaction (START, a 7-bit
    address, the direction bit, its ack bit, any number of bytes each with
    its ack bit, STOP), fed with any time tags to a decoder that is in IDLE
    with both stored levels high, is decoded into START, ADDRESS, WRITE or
    READ, ACK or NACK, then DATA and ACK or NACK for every byte, and STOP;
    the data channel receives the address and then the bytes, with their
    values; no diagnostic is emitted; and the decoder is again in IDLE with
    both stored levels high, ready for the next transaction. *)
Theorem transaction_round_trip
        (d : decoder) (tm : nat -> Z) (n : nat)
        (addr : Z) (rw ack : bool) (payload : list (Z * bool)) :
  state d = IDLE -> scl d = 1 -> sda d = 1 ->
  0 <= addr < 128 ->
  Forall (fun p => 0 <= fst p < 256) payload ->
  let r := run d (stamp tm n (transactionLevels addr rw ack payload)) in
  eventLabels (snd r)
  = ["START"%string; "ADDRESS"%string; rwLabel rw; ackLabel ack]
    ++ flat_map (fun p => ["DATA"%string; ackLabel (snd p)]) payload
    ++ ["STOP"%string]
  /\ map snd (dataChannel (snd r)) = addr :: map fst payload
  /\ ioChannel (snd r) = []
  /\ state (fst r) = IDLE /\ scl (fst r) = 1 /\ sda (fst r) = 1.
Proof.
  intros S C A Ra Rp. now apply transaction_run.
Qed.

Lemma transaction_round_trip_witness :
  let r := run (newDecoder 0 0)
               (stamp Z.of_nat 0
                  (transactionLevels 80 true false [(165, false); (60, true)])) in
  eventLabels (snd r)
  = ["START"%string; "ADDRESS"%string; rwLabel true; ackLabel false]
    ++ flat_map (fun p => ["DATA"%string; ackLabel (snd p)])
         [(165, false); (60, true)]
    ++ ["STOP"%string]
  /\ map snd (dataChannel (snd r)) = 80 :: map fst [(165, false); (60, true)]
  /\ ioChannel (snd r) = []
  /\ state (fst r) = IDLE /\ scl (fst r) = 1 /\ sda (fst r) = 1.
Proof.
  apply (transaction_round_trip (newDecoder 0 0) Z.of_nat 0 80 true false
           [(165, false); (60, true)]);
    try reflexivity; try lia.
  repeat constructor; simpl; lia.
Defined.

(** X15.  Bus traffic made of any number of transactions, one after the
    other, is decoded by a session into the events of the transactions, one
    after the other, and the data channel receives their addresses and
    bytes in order; no diagnostic is emitted. *)
Theorem traffic_round_trip
        (pos0 byteBuffer0 : Z) (tm : nat -> Z) (ts : list transaction) :
  Forall transactionOk ts ->
  let tr := snd (decode pos0 byteBuffer0 (stamp tm 0 (trafficLevels ts))) in
  eventLabels tr = flat_map transactionLabels ts
  /\ map snd (dataChannel tr) = flat_map transactionBytes ts
  /\ ioChannel tr = [].
Proof.
  intros F. cbv zeta. unfold decode.
  assert (K : forall (d : decoder) (n : nat),
             state d = IDLE -> scl d = 1 -> sda d = 1 ->
             eventLabels (snd (run d (stamp tm n (trafficLevels ts))))
             = flat_map transactionLabels ts
             /\ map snd (dataChannel (snd (run d (stamp tm n (trafficLevels ts)))))
                = flat_map transactionBytes ts
             /\ ioChannel (snd (run d (stamp tm n (trafficLevels ts)))) = []).
  { induction F as [|t ts [Ra Rp] _ IH]; intros d n S C A.
    - simpl. auto.
    - unfold trafficLevels. cbn [flat_map]. fold (trafficLevels ts).
      rewrite run_stamp_app.
      destruct (transaction_run d tm n (t_addr t) (t_rw t) (t_ack t)
                                (t_payload t) S C A Ra Rp)
        as (E & D & I & S' & C' & A').
      cbv zeta in E, D, I, S', C', A'.
      destruct (IH _ (List.length (transactionLevels (t_addr t) (t_rw t)
                                     (t_ack t) (t_payload t)) + n)%nat
                   S' C' A') as (E2 & D2 & I2).
      rewrite !pair_snd, eventLabels_app, dataChannel_app, ioChannel_app,
        map_app, E, D, I, E2, D2, I2.
      repeat split. }
  apply K; reflexivity.
Qed.

Lemma traffic_round_trip_witness :
  let ts := [mkTransaction 80 false false [(255, true)];
             mkTransaction 33 true false [(1, false); (2, true)]] in
  let tr := snd (decode 0 0 (stamp Z.of_nat 0 (trafficLevels ts))) in
  eventLabels tr = flat_map transactionLabels ts
  /\ map snd (dataChannel tr) = flat_map transactionBytes ts
  /\ ioChannel tr = [].
Proof.
  apply (traffic_round_trip 0 0 Z.of_nat
           [mkTransaction 80 false false [(255, true)];
            mkTransaction 33 true false [(1, false); (2, true)]]).
  repeat constructor; simpl; lia.
Defined.
